(** * chaco: the level-of-detail image plot and the deprecated [data_label] shim

    A shallow embedding of [chaco/lod_image_plot.py] and [chaco/data_label.py].

    Conventions of the embedding.
    - Python numbers that may be [int] or [float] (screen coordinates, draw
      bounds) are exact rationals [Q]; [int(x)] truncates toward zero and a
      true division by zero raises [ZeroDivisionError].
    - Array indices and LOD numbers are unbounded integers [Z].
    - A method that can raise or loop returns a [result]; the [while] loop of
      [_get_necessary_lod] takes a fuel argument and answers [Hang] when the
      fuel is used up.
    - The traits framework, the graphics context and the encore serializer are
      not part of the module.  Their observable calls are recorded in a trace
      of [effect]s; a handler registered with [dispatch="ui"] runs at once on
      the UI thread and is queued on the UI event loop from any other thread.
      A method that writes a notifying trait takes the running [thread].
    - [necessary_lod] is a cached property that depends on [draw_size[]]:
      the field [_traits_cache_necessary_lod] holds the cached value, a read
      evaluates the getter [_get_necessary_lod] only when nothing is cached,
      and only a change of [draw_size] drops the cached value.  A trait
      assignment notifies when the new value differs ([!=]) from the old.
    - The methods of [LODImageSource] and of the base classes that are called
      here are total functions: fields of [LODImageSource], of [ImageBackend]
      and the field [virtual_screen_bbox]. *)

From Stdlib Require Import ZArith QArith Lia List Bool String.
From stdpp Require Import base option list gmap strings.

Local Open Scope Z_scope.

(** ** Exceptions and results *)

Inductive exn : Type :=
| ValueError
| TypeError
| IndexError
| ZeroDivisionError.

Inductive result (A : Type) : Type :=
| Ret (a : A)
| Raise (e : exn)
| Hang.

Arguments Ret {A} a.
Arguments Raise {A} e.
Arguments Hang {A}.

#[global] Instance result_ret : MRet result := fun A a => Ret a.

#[global] Instance result_bind : MBind result := fun A B k m =>
  match m with
  | Ret a => k a
  | Raise e => Raise e
  | Hang => Hang
  end.

(** ** Python arithmetic on numbers *)

(** [int(q)]: truncation toward zero. *)
Definition py_int (q : Q) : Z := Z.quot (Qnum q) (Zpos (Qden q)).

(** [a / b] in Python 3. *)
Definition truediv (a b : Q) : result Q :=
  if Qeq_bool b 0 then Raise ZeroDivisionError else Ret (a / b)%Q.

(** [x < y] on numbers. *)
Definition Qltb (x y : Q) : bool := negb (Qle_bool y x).

(** [0 in xs]: membership by [==]. *)
Definition zero_in (xs : list Q) : bool := existsb (Qeq_bool 0) xs.

(** ** The data model *)

(** [(col_min, col_max, row_min, row_max)] *)
Definition index_bounds : Type := (Z * Z * Z * Z)%type.

(** [(x, y, width, height)] *)
Definition rect : Type := (Q * Q * Q * Q)%type.

Inductive thread : Type := UIThread | WorkerThread.

(** The only callable this module hands to the serializer. *)
Inductive job : Type := ComputeCachedImage.

(** Handlers registered with [dispatch="ui"]. *)
Inductive handler : Type := HandleLodLevelChange | HandleNewCached.

(** numpy arrays and kiva images are opaque to this module: it only reads
    [data.size] and converts with [ImagePlot._kiva_array_from_numpy_array]. *)
Class ImageBackend (ndarray kiva_array : Type) : Type := {
  size : ndarray -> Z;
  _kiva_array_from_numpy_array : ndarray -> kiva_array
}.

Set Implicit Arguments.

(** The interface of [LODImageSource] this module calls. *)
Record LODImageSource (ndarray : Type) : Type := {
  get_width : Z;
  get_height : Z;
  lod_bounds_from_nominal_bounds : option index_bounds -> Z -> index_bounds;
  get_data_bounded : option index_bounds -> Z -> ndarray
}.

(** encore's [Serializer], as far as the module touches it. *)
Record Serializer : Type := {
  _pending_operations : list job
}.

Record LODImagePlot (ndarray kiva_array : Type) : Type := {
  value : LODImageSource ndarray;
  draw_bounds : list Q;
  draw_size : list Q;
  lod : Z;
  maximum_lod : Z;
  _serializer : Serializer;
  (* the value of [necessary_lod] cached by [@cached_property] *)
  _traits_cache_necessary_lod : option Z;
  (* inherited from ImagePlot and its bases *)
  bounds : list Q;
  x_axis_is_flipped : bool;
  y_axis_is_flipped : bool;
  _image_cache_valid : bool;
  _cached_image : option kiva_array;
  _cached_dest_rect : option (list Q);
  (* what [self._calc_virtual_screen_bbox()] returns: fixed by the index
     data source and the mappers, which this module never writes *)
  virtual_screen_bbox : rect
}.

(** Calls that leave the module. *)
Inductive effect (kiva_array : Type) : Type :=
| SuperInvalidateDraw
| RequestRedraw
| Submit (j : job)
| RenderImageInRect (img : kiva_array) (screen_rect : option (list Q))
| SuperDrawImage.

Arguments SuperInvalidateDraw {kiva_array}.
Arguments SuperDrawImage {kiva_array}.
Arguments RequestRedraw {kiva_array}.
Arguments Submit {kiva_array} j.

(** The plot object, the UI event loop's queue of handlers, and the calls
    made so far. *)
Record World (ndarray kiva_array : Type) : Type := {
  plot : LODImagePlot ndarray kiva_array;
  ui_loop : list handler;
  trace : list (effect kiva_array)
}.

(** What a stateful method leaves behind. *)
Inductive outcome (ndarray kiva_array : Type) : Type :=
| Done (w : World ndarray kiva_array)
| Raised (e : exn) (w : World ndarray kiva_array)
| Hung.

Arguments Hung {ndarray kiva_array}.

Unset Implicit Arguments.

Section Plot.

Context {ndarray kiva_array : Type} `{!ImageBackend ndarray kiva_array}.

Abbreviation Plot := (LODImagePlot ndarray kiva_array).
Abbreviation world := (World ndarray kiva_array).

(** *** Attribute writes *)

Definition set_draw_bounds (v : list Q) (p : Plot) : Plot :=
  {| value := value p;
     draw_bounds := v;
     draw_size := draw_size p;
     lod := lod p;
     maximum_lod := maximum_lod p;
     _serializer := _serializer p;
     _traits_cache_necessary_lod := _traits_cache_necessary_lod p;
     bounds := bounds p;
     x_axis_is_flipped := x_axis_is_flipped p;
     y_axis_is_flipped := y_axis_is_flipped p;
     _image_cache_valid := _image_cache_valid p;
     _cached_image := _cached_image p;
     _cached_dest_rect := _cached_dest_rect p;
     virtual_screen_bbox := virtual_screen_bbox p |}.

Definition set_draw_size (v : list Q) (p : Plot) : Plot :=
  {| value := value p;
     draw_bounds := draw_bounds p;
     draw_size := v;
     lod := lod p;
     maximum_lod := maximum_lod p;
     _serializer := _serializer p;
     _traits_cache_necessary_lod := _traits_cache_necessary_lod p;
     bounds := bounds p;
     x_axis_is_flipped := x_axis_is_flipped p;
     y_axis_is_flipped := y_axis_is_flipped p;
     _image_cache_valid := _image_cache_valid p;
     _cached_image := _cached_image p;
     _cached_dest_rect := _cached_dest_rect p;
     virtual_screen_bbox := virtual_screen_bbox p |}.

Definition set_lod (v : Z) (p : Plot) : Plot :=
  {| value := value p;
     draw_bounds := draw_bounds p;
     draw_size := draw_size p;
     lod := v;
     maximum_lod := maximum_lod p;
     _serializer := _serializer p;
     _traits_cache_necessary_lod := _traits_cache_necessary_lod p;
     bounds := bounds p;
     x_axis_is_flipped := x_axis_is_flipped p;
     y_axis_is_flipped := y_axis_is_flipped p;
     _image_cache_valid := _image_cache_valid p;
     _cached_image := _cached_image p;
     _cached_dest_rect := _cached_dest_rect p;
     virtual_screen_bbox := virtual_screen_bbox p |}.

Definition set__serializer (v : Serializer) (p : Plot) : Plot :=
  {| value := value p;
     draw_bounds := draw_bounds p;
     draw_size := draw_size p;
     lod := lod p;
     maximum_lod := maximum_lod p;
     _serializer := v;
     _traits_cache_necessary_lod := _traits_cache_necessary_lod p;
     bounds := bounds p;
     x_axis_is_flipped := x_axis_is_flipped p;
     y_axis_is_flipped := y_axis_is_flipped p;
     _image_cache_valid := _image_cache_valid p;
     _cached_image := _cached_image p;
     _cached_dest_rect := _cached_dest_rect p;
     virtual_screen_bbox := virtual_screen_bbox p |}.

Definition set__traits_cache_necessary_lod (v : option Z) (p : Plot) : Plot :=
  {| value := value p;
     draw_bounds := draw_bounds p;
     draw_size := draw_size p;
     lod := lod p;
     maximum_lod := maximum_lod p;
     _serializer := _serializer p;
     _traits_cache_necessary_lod := v;
     bounds := bounds p;
     x_axis_is_flipped := x_axis_is_flipped p;
     y_axis_is_flipped := y_axis_is_flipped p;
     _image_cache_valid := _image_cache_valid p;
     _cached_image := _cached_image p;
     _cached_dest_rect := _cached_dest_rect p;
     virtual_screen_bbox := virtual_screen_bbox p |}.

Definition set__image_cache_valid (v : bool) (p : Plot) : Plot :=
  {| value := value p;
     draw_bounds := draw_bounds p;
     draw_size := draw_size p;
     lod := lod p;
     maximum_lod := maximum_lod p;
     _serializer := _serializer p;
     _traits_cache_necessary_lod := _traits_cache_necessary_lod p;
     bounds := bounds p;
     x_axis_is_flipped := x_axis_is_flipped p;
     y_axis_is_flipped := y_axis_is_flipped p;
     _image_cache_valid := v;
     _cached_image := _cached_image p;
     _cached_dest_rect := _cached_dest_rect p;
     virtual_screen_bbox := virtual_screen_bbox p |}.

Definition set__cached_image (v : option kiva_array) (p : Plot) : Plot :=
  {| value := value p;
     draw_bounds := draw_bounds p;
     draw_size := draw_size p;
     lod := lod p;
     maximum_lod := maximum_lod p;
     _serializer := _serializer p;
     _traits_cache_necessary_lod := _traits_cache_necessary_lod p;
     bounds := bounds p;
     x_axis_is_flipped := x_axis_is_flipped p;
     y_axis_is_flipped := y_axis_is_flipped p;
     _image_cache_valid := _image_cache_valid p;
     _cached_image := v;
     _cached_dest_rect := _cached_dest_rect p;
     virtual_screen_bbox := virtual_screen_bbox p |}.

Definition set__cached_dest_rect (v : option (list Q)) (p : Plot) : Plot :=
  {| value := value p;
     draw_bounds := draw_bounds p;
     draw_size := draw_size p;
     lod := lod p;
     maximum_lod := maximum_lod p;
     _serializer := _serializer p;
     _traits_cache_necessary_lod := _traits_cache_necessary_lod p;
     bounds := bounds p;
     x_axis_is_flipped := x_axis_is_flipped p;
     y_axis_is_flipped := y_axis_is_flipped p;
     _image_cache_valid := _image_cache_valid p;
     _cached_image := _cached_image p;
     _cached_dest_rect := v;
     virtual_screen_bbox := virtual_screen_bbox p |}.

Definition with_plot (f : Plot -> Plot) (w : world) : world :=
  {| plot := f (plot w); ui_loop := ui_loop w; trace := trace w |}.

(** A call that leaves the module is appended to the trace. *)
Definition emit (e : effect kiva_array) (w : world) : world :=
  {| plot := plot w; ui_loop := ui_loop w; trace := trace w ++ [e] |}.

(** Queue a handler on the UI event loop. *)
Definition invoke_later (h : handler) (w : world) : world :=
  {| plot := plot w; ui_loop := ui_loop w ++ [h]; trace := trace w |}.

Definition _calc_virtual_screen_bbox (self : Plot) : rect :=
  virtual_screen_bbox self.

(** *** [_calc_zoom_coords] *)

(** [int(num / den * scale)] *)
Definition scaled_index (num den : Q) (scale : Z) : result Z :=
  q ← truediv num den;
  Ret (py_int (q * inject_Z scale)%Q).

(** The clipping of the index bounds to the array bounds. *)
Definition clip_bounds (raw : index_bounds) (array_width array_height : Z)
  : index_bounds :=
  let '(col_min, col_max, row_min, row_max) := raw in
  let col_min := Z.max col_min 0 in
  let col_max := Z.min col_max array_width in
  let row_min := Z.max row_min 0 in
  let row_max := Z.min row_max array_height in
  (col_min, col_max, row_min, row_max).

(** The flips done after the clipping. *)
Definition flip_bounds (x_flipped y_flipped : bool) (b : index_bounds)
  (array_width array_height : Z) : index_bounds :=
  let '(col_min, col_max, row_min, row_max) := b in
  let '(row_min, row_max) :=
    if y_flipped then
      let row_min := array_height - row_min in
      let row_max := array_height - row_max in
      (row_max, row_min)
    else (row_min, row_max) in
  let '(col_min, col_max) :=
    if x_flipped then
      let col_min := array_width - col_min in
      let col_max := array_width - col_max in
      (col_max, col_min)
    else (col_min, col_max) in
  (col_min, col_max, row_min, row_max).

(** Lines 263-319.  Unpacking [draw_bounds] raises [ValueError] unless it
    has four items. *)
Definition _calc_zoom_coords (self : Plot) (image_rect : rect)
  : result (option index_bounds * option (list Q)) :=
  match draw_bounds self with
  | [sub_x; sub_y; sub_width; sub_height] =>
    if zero_in [sub_width; sub_height] || zero_in (bounds self) then
      Ret (None, None)
    else
      let '(image_x, image_y, image_width, image_height) := image_rect in
      let array_width := get_width (value self) - 1 in
      let array_height := get_height (value self) - 1 in
      col_min ← scaled_index (sub_x - image_x)%Q image_width array_width;
      col_max ← scaled_index (sub_x - image_x + sub_width)%Q image_width
                   array_width;
      row_min ← scaled_index (sub_y - image_y)%Q image_height array_height;
      row_max ← scaled_index (sub_y - image_y + sub_height)%Q image_height
                   array_height;
      let clipped :=
        clip_bounds (col_min, col_max, row_min, row_max)
                    array_width array_height in
      let index_bounds :=
        flip_bounds (x_axis_is_flipped self) (y_axis_is_flipped self)
                    clipped array_width array_height in
      let screen_rect := draw_bounds self in
      Ret (Some index_bounds, Some screen_rect)
  | _ => Raise ValueError
  end.

(** *** [_get_necessary_lod] *)

(** [xs[i]] on a list. *)
Definition py_getitem (xs : list Q) (i : nat) : result Q :=
  match xs !! i with
  | Some x => Ret x
  | None => Raise IndexError
  end.

(** A [while] loop: [Hang] when the fuel does not suffice. *)
Fixpoint while_loop {S : Type} (fuel : nat) (cond : S -> result bool)
  (body : S -> S) (s : S) : result S :=
  match fuel with
  | O => Hang
  | Datatypes.S fuel =>
    c ← cond s;
    if c : bool then while_loop fuel cond body (body s) else Ret s
  end.

(** The loop's variables: [lod] and
    [(col_min, col_max, row_min, row_max)]. *)
Definition lod_state : Type := (Z * index_bounds)%type.

(** [((col_max - col_min) < screen_size[0]) or
     ((row_max - row_min) < screen_size[1])] *)
Definition lod_too_coarse (screen_size : list Q) (st : lod_state)
  : result bool :=
  let '(_, (col_min, col_max, row_min, row_max)) := st in
  w ← py_getitem screen_size 0;
  if Qltb (inject_Z (col_max - col_min)) w then Ret true
  else
    h ← py_getitem screen_size 1;
    Ret (Qltb (inject_Z (row_max - row_min)) h).

(** [lod -= 1] and the bounds at the new [lod]. *)
Definition lod_decrement (self : Plot) (index_bounds : option index_bounds)
  (st : lod_state) : lod_state :=
  let lod := fst st - 1 in
  (lod, lod_bounds_from_nominal_bounds (value self) index_bounds lod).

(** Lines 76-92.  [screen_rect[2:]] raises [TypeError] on [None]. *)
Definition _get_necessary_lod (fuel : nat) (self : Plot) : result Z :=
  let image_rect := _calc_virtual_screen_bbox self in
  zc ← _calc_zoom_coords self image_rect;
  let '(index_bounds, screen_rect) := zc in
  match screen_rect with
  | None => Raise TypeError
  | Some screen_rect =>
    let screen_size := drop 2 screen_rect in
    let lod := maximum_lod self in
    let b := lod_bounds_from_nominal_bounds (value self) index_bounds lod in
    st ← while_loop fuel (lod_too_coarse screen_size)
           (lod_decrement self index_bounds) (lod, b);
    Ret (fst st)
  end.

(** The LOD image at [lod] spans at least the screen area of
    [screen_rect = [x; y; width; height]] in both dimensions:
    [(col_max - col_min) >= width] and [(row_max - row_min) >= height]. *)
Definition spans_screen (self : Plot) (index_bounds : option index_bounds)
  (screen_rect : list Q) (lod : Z) : bool :=
  let '(col_min, col_max, row_min, row_max) :=
    lod_bounds_from_nominal_bounds (value self) index_bounds lod in
  match screen_rect !! 2%nat, screen_rect !! 3%nat with
  | Some width, Some height =>
    Qle_bool width (inject_Z (col_max - col_min))
    && Qle_bool height (inject_Z (row_max - row_min))
  | _, _ => false
  end.

(** *** The cached property [necessary_lod] *)

(** [self.necessary_lod] (lines 50 and 76): the cached value when there is
    one; otherwise the getter runs and its result is cached.  The plot
    returned carries the cache. *)
Definition necessary_lod (fuel : nat) (self : Plot) : result (Z * Plot) :=
  match _traits_cache_necessary_lod self with
  | Some cached => Ret (cached, self)
  | None =>
    v ← _get_necessary_lod fuel self;
    Ret (v, set__traits_cache_necessary_lod (Some v) self)
  end.

(** [a == b] on lists of numbers. *)
Fixpoint py_list_eq (a b : list Q) : bool :=
  match a, b with
  | [], [] => true
  | x :: a, y :: b => Qeq_bool x y && py_list_eq a b
  | _, _ => false
  end.

(** *** Notifications *)

Definition request_redraw (w : world) : world := emit RequestRedraw w.

Definition invalidate_draw (w : world) : world :=
  let w := with_plot (set__image_cache_valid false) w in
  emit SuperInvalidateDraw w.

Definition handle_lod_level_change (w : world) : world := invalidate_draw w.

Definition handle_new_cached (w : world) : world := request_redraw w.

Definition run_handler (h : handler) (w : world) : world :=
  match h with
  | HandleLodLevelChange => handle_lod_level_change w
  | HandleNewCached => handle_new_cached w
  end.

(** [dispatch="ui"]: at once on the UI thread, queued otherwise. *)
Definition dispatch_ui (th : thread) (h : handler) (w : world) : world :=
  match th with
  | UIThread => run_handler h w
  | WorkerThread => invoke_later h w
  end.

(** [self.lod = v]: the change handler is notified when the value changes. *)
Definition assign_lod (th : thread) (v : Z) (w : world) : world :=
  if lod (plot w) =? v then w
  else dispatch_ui th HandleLodLevelChange (with_plot (set_lod v) w).

(** [self.new_cache_ready = True]: an [Event] notifies on every write. *)
Definition fire_new_cache_ready (th : thread) (w : world) : world :=
  dispatch_ui th HandleNewCached w.

(** [self._serializer.submit(j)] *)
Definition submit (j : job) (w : world) : world :=
  let queue (p : Plot) :=
    {| _pending_operations := _pending_operations (_serializer p) ++ [j] |} in
  emit (Submit j) (with_plot (fun p => set__serializer (queue p) p) w).

(** [self._serializer._pending_operations.clear()] *)
Definition clear_pending_operations (w : world) : world :=
  with_plot (set__serializer {| _pending_operations := [] |}) w.

Definition handle_draw_bounds_change (th : thread) (w : world) : world :=
  let w := assign_lod th (maximum_lod (plot w)) w in
  let w := clear_pending_operations w in
  invalidate_draw w.

(** [self.draw_bounds = v]: [handle_draw_bounds_change] runs when the list
    changes. *)
Definition assign_draw_bounds (th : thread) (v : list Q) (w : world) : world :=
  let changed := negb (py_list_eq (draw_bounds (plot w)) v) in
  let w := with_plot (set_draw_bounds v) w in
  if changed then handle_draw_bounds_change th w else w.

(** [self.draw_size = v]: when the list changes, the cached value of
    [necessary_lod] is dropped ([depends_on="draw_size[]"]). *)
Definition assign_draw_size (v : list Q) (w : world) : world :=
  let changed := negb (py_list_eq (draw_size (plot w)) v) in
  let w := with_plot (set_draw_size v) w in
  if changed then with_plot (set__traits_cache_necessary_lod None) w else w.

(** Lines 139-146, on thread [th]; [new_bounds] is the value of
    [list(intersect_bounds(self.position + self.bounds, view_bounds))]. *)
Definition _draw_image (th : thread) (new_bounds : list Q) (w : world)
  : world :=
  let w := assign_draw_bounds th new_bounds w in
  let w := assign_draw_size (drop 2 new_bounds) w in
  emit SuperDrawImage w.

(** *** [_render] and [_compute_cached_image] *)

(** Lines 124-137.  The drawing done by [_render_image_in_rect] on the
    graphics context is one [RenderImageInRect] call. *)
Definition _render (w : world) : world :=
  let w :=
    if negb (_image_cache_valid (plot w)) then submit ComputeCachedImage w
    else w in
  match _cached_image (plot w) with
  | Some img => emit (RenderImageInRect img (_cached_dest_rect (plot w))) w
  | None => w
  end.

Definition _get_data_slice (self : Plot) (index_bounds : option index_bounds)
  (mapper : option (ndarray -> ndarray)) : ndarray :=
  let data := get_data_bounded (value self) index_bounds (lod self) in
  match mapper with
  | Some f => if 0 <? size data then f data else data
  | None => data
  end.

(** Lines 152-178, run on thread [th]. *)
Definition _compute_cached_image (fuel : nat) (th : thread)
  (mapper : option (ndarray -> ndarray)) (w : world)
  : outcome ndarray kiva_array :=
  let virtual_rect := _calc_virtual_screen_bbox (plot w) in
  match _calc_zoom_coords (plot w) virtual_rect with
  | Ret (index_bounds, screen_rect) =>
    let data := _get_data_slice (plot w) index_bounds mapper in
    let w :=
      with_plot
        (set__cached_image (Some (_kiva_array_from_numpy_array data))) w in
    let w := with_plot (set__cached_dest_rect screen_rect) w in
    let w := with_plot (set__image_cache_valid true) w in
    let w := fire_new_cache_ready th w in
    match necessary_lod fuel (plot w) with
    | Ret (necessary, self) =>
      let w := with_plot (fun _ => self) w in
      if necessary <? lod (plot w)
      then Done (assign_lod th (lod (plot w) - 1) w)
      else Done w
    | Raise e => Raised e w
    | Hang => Hung
    end
  | Raise e => Raised e w
  | Hang => Hung
  end.

(** [k] runs of [_compute_cached_image] in a row. *)
Fixpoint cache_computations (fuel : nat) (th : thread)
  (mapper : option (ndarray -> ndarray)) (k : nat) (w : world)
  : outcome ndarray kiva_array :=
  match k with
  | O => Done w
  | Datatypes.S k =>
    match _compute_cached_image fuel th mapper w with
    | Done w' => cache_computations fuel th mapper k w'
    | o => o
    end
  end.

(** *** Calls into the plot

    What the toolkit and the serializer's worker do with the object between
    two draws: render, invalidate, run the next handler queued on the UI
    event loop, and, for the worker, take the oldest pending job off the
    serializer's queue and run it. *)

Inductive call : Type :=
| CallRender
| CallInvalidateDraw
| WorkerRunsJob
| RunUIHandler.

Definition step (fuel : nat) (c : call) (w : world)
  : outcome ndarray kiva_array :=
  match c with
  | CallRender => Done (_render w)
  | CallInvalidateDraw => Done (invalidate_draw w)
  | WorkerRunsJob =>
    match _pending_operations (_serializer (plot w)) with
    | [] => Done w
    | ComputeCachedImage :: rest =>
      _compute_cached_image fuel WorkerThread None
        (with_plot (set__serializer {| _pending_operations := rest |}) w)
    end
  | RunUIHandler =>
    match ui_loop w with
    | [] => Done w
    | h :: rest =>
      Done (run_handler h
              {| plot := plot w; ui_loop := rest; trace := trace w |})
    end
  end.

Fixpoint run (fuel : nat) (cs : list call) (w : world)
  : outcome ndarray kiva_array :=
  match cs with
  | [] => Done w
  | c :: cs =>
    match step fuel c w with
    | Done w' => run fuel cs w'
    | o => o
    end
  end.

Definition is_submit (e : effect kiva_array) : bool :=
  match e with
  | Submit _ => true
  | _ => false
  end.

(** Number of jobs handed to the serializer so far. *)
Definition submissions (w : world) : nat :=
  length (List.filter is_submit (trace w)).

(** Two plot states show the same view: same data source, draw bounds,
    component bounds, axis flips, image rectangle and [maximum_lod]. *)
Definition same_view (p q : Plot) : Prop :=
  value p = value q /\ draw_bounds p = draw_bounds q /\
  bounds p = bounds q /\
  x_axis_is_flipped p = x_axis_is_flipped q /\
  y_axis_is_flipped p = y_axis_is_flipped q /\
  maximum_lod p = maximum_lod q /\
  virtual_screen_bbox p = virtual_screen_bbox q.

(** "At most one job is submitted per invalidation": after the cache of [w]
    is invalidated, any number of [_render] calls submits at most one job. *)
Definition one_submission_per_invalidation (w : world) : Prop :=
  _image_cache_valid (plot w) = true ->
  forall k : nat,
    (submissions (Nat.iter k _render (invalidate_draw w))
     <= submissions w + 1)%nat.


(** "Starting from [lod = maximum_lod], recomputations refine until
    [lod = necessary_lod]": some number of cache computations brings [lod]
    to the value of the property. *)
Definition refines_until_necessary_lod (fuel : nat) (w : world) : Prop :=
  lod (plot w) = maximum_lod (plot w) ->
  forall (v : Z) (self' : Plot),
    necessary_lod fuel (plot w) = Ret (v, self') ->
    exists (k : nat) (w' : world),
      cache_computations fuel WorkerThread None k w = Done w' /\
      lod (plot w') = v.

End Plot.

(** ** Module import *)

(** What the interpreter knows when a module body runs: for every module
    name, whether importing it succeeds, and the module's namespace. *)
Inductive py_value : Type :=
| PyModule (name : string)
| PyObject (id : positive).

Inductive import_exn : Type :=
| ImportError
| OtherException.

Record interpreter : Type := {
  (* [None]: the import statement succeeds; [Some e]: it raises [e] *)
  import_failure : string -> option import_exn;
  (* the attributes of an imported module *)
  namespace_of : string -> gmap string py_value
}.

Inductive warning_category : Type :=
| UserWarning
| DeprecationWarning.

Record warning : Type := {
  message : string;
  category : warning_category;
  stacklevel : Z
}.

(** How running a module body ends; [A] is what a loaded module is
    observed by. *)
Inductive import_outcome (A : Type) : Type :=
| Loaded (a : A)
| Propagated (e : import_exn)
| SystemExit (msg : string).

Arguments Loaded {A} a.
Arguments Propagated {A} e.
Arguments SystemExit {A} msg.

(** [import m]: the first failure among the statements, in order. *)
Fixpoint import_modules (py : interpreter) (ms : list string)
  : option import_exn :=
  match ms with
  | [] => None
  | m :: ms =>
    match import_failure py m with
    | Some e => Some e
    | None => import_modules py ms
    end
  end.

(** [from m import n1, n2, ...] into the namespace [ns]: a name the module
    lacks raises [ImportError]. *)
Fixpoint bind_names (src : gmap string py_value) (names : list string)
  (ns : gmap string py_value) : option (gmap string py_value) :=
  match names with
  | [] => Some ns
  | n :: names =>
    match src !! n with
    | Some v => bind_names src names (<[n := v]> ns)
    | None => None
    end
  end.

Module lod_image_plot.

(** Lines 1-10: the unconditional imports. *)
Definition required_imports : list string :=
  ["contextlib"; "numpy"; "enable.base"; "kiva.quartz.ABCGI"; "traits.api"].

(** Lines 13-15: the imports inside [try]. *)
Definition encore_imports : list string :=
  ["encore.concurrent.futures.serializer";
   "encore.concurrent.futures.enhanced_thread_pool_executor"].

(** Lines 20-21. *)
Definition package_imports : list string :=
  ["chaco.lod_image_source"; "chaco.image_plot"].

Definition exit_message : string :=
  "encore must be installed to use LODImagePlot".

(** Running the module body up to the class definition. *)
Definition import_module (py : interpreter) : import_outcome unit :=
  match import_modules py required_imports with
  | Some e => Propagated e
  | None =>
    match import_modules py encore_imports with
    | Some ImportError => SystemExit exit_message
    | Some e => Propagated e
    | None =>
      match import_modules py package_imports with
      | Some e => Propagated e
      | None => Loaded tt
      end
    end
  end.

End lod_image_plot.

Module data_label.

Definition source_module : string := "chaco.overlays.data_label".

Definition reexported : list string :=
  ["DataLabel"; "draw_arrow"; "find_region"].

Definition deprecation : warning :=
  {| message :=
       "Importing DataLabel, draw_arrow, or find_region from this module is "
       +:+ "deprecated. Please use chaco.api or chaco.overlays.api instead. This "
       +:+ "module will be removed in the next major release.";
     category := DeprecationWarning;
     stacklevel := 2 |}.

(** Running the module body: the module's namespace and the warnings
    issued. *)
Definition import_module (py : interpreter)
  : import_outcome (gmap string py_value * list warning) :=
  match import_failure py "warnings" with
  | Some e => Propagated e
  | None =>
    let ns : gmap string py_value := {[ "warnings" := PyModule "warnings" ]} in
    match import_failure py source_module with
    | Some e => Propagated e
    | None =>
      match bind_names (namespace_of py source_module) reexported ns with
      | None => Propagated ImportError
      | Some ns => Loaded (ns, [deprecation])
      end
    end
  end.

End data_label.

(** ** Sample objects *)

Module Sample.

#[global] Instance backend : ImageBackend (list Z) (list Z) :=
  {| size := fun data => Z.of_nat (length data);
     _kiva_array_from_numpy_array := fun data => data |}.

(** A 1024 x 1024 image whose LOD [n] halves the resolution [n] times. *)
Definition pyramid : LODImageSource (list Z) :=
  {| get_width := 1024;
     get_height := 1024;
     lod_bounds_from_nominal_bounds := fun ib lod =>
       match ib with
       | Some (col_min, col_max, row_min, row_max) =>
         (Z.shiftr col_min lod, Z.shiftr col_max lod,
          Z.shiftr row_min lod, Z.shiftr row_max lod)
       | None => (0, 0, 0, 0)
       end;
     get_data_bounded := fun ib lod =>
       match ib with
       | Some (col_min, col_max, row_min, row_max) =>
         [lod; col_min; col_max; row_min; row_max]
       | None => []
       end |}.

(** A 10 x 10 image with a single level. *)
Definition thumbnail : LODImageSource (list Z) :=
  {| get_width := 10;
     get_height := 10;
     lod_bounds_from_nominal_bounds := fun ib _ =>
       match ib with
       | Some b => b
       | None => (0, 0, 0, 0)
       end;
     get_data_bounded := fun _ _ => [] |}.

(** The whole pyramid drawn into a 100 x 100 area. *)
Definition fitted : LODImagePlot (list Z) (list Z) :=
  {| value := pyramid;
     draw_bounds := [0; 0; 100; 100]%Q;
     draw_size := [100; 100]%Q;
     lod := 9;
     maximum_lod := 9;
     _serializer := {| _pending_operations := [] |};
     _traits_cache_necessary_lod := None;
     bounds := [100; 100]%Q;
     x_axis_is_flipped := false;
     y_axis_is_flipped := false;
     _image_cache_valid := true;
     _cached_image := None;
     _cached_dest_rect := None;
     virtual_screen_bbox := (0, 0, 100, 100)%Q |}.

(** The thumbnail panned to the right of the 10 x 10 drawing area. *)
Definition panned_away : LODImagePlot (list Z) (list Z) :=
  {| value := thumbnail;
     draw_bounds := [0; 0; 10; 10]%Q;
     draw_size := [10; 10]%Q;
     lod := 0;
     maximum_lod := 0;
     _serializer := {| _pending_operations := [] |};
     _traits_cache_necessary_lod := None;
     bounds := [10; 10]%Q;
     x_axis_is_flipped := false;
     y_axis_is_flipped := false;
     _image_cache_valid := true;
     _cached_image := None;
     _cached_dest_rect := None;
     virtual_screen_bbox := (100, 0, 10, 10)%Q |}.

(** The fitted pyramid after [necessary_lod] was read: 3 is cached. *)
Definition fitted_read : LODImagePlot (list Z) (list Z) :=
  set__traits_cache_necessary_lod (Some 3) fitted.


(** The plot [fitted_read] after [maximum_lod] was lowered to 2 and a change
    of draw bounds of the same size has reset [lod] to it: the cached value
    3 is still there. *)
Definition lowered : LODImagePlot (list Z) (list Z) :=
  {| value := pyramid;
     draw_bounds := [0; 0; 100; 100]%Q;
     draw_size := [100; 100]%Q;
     lod := 2;
     maximum_lod := 2;
     _serializer := {| _pending_operations := [] |};
     _traits_cache_necessary_lod := Some 3;
     bounds := [100; 100]%Q;
     x_axis_is_flipped := false;
     y_axis_is_flipped := false;
     _image_cache_valid := false;
     _cached_image := None;
     _cached_dest_rect := None;
     virtual_screen_bbox := (0, 0, 100, 100)%Q |}.

Definition start (p : LODImagePlot (list Z) (list Z))
  : World (list Z) (list Z) :=
  {| plot := p; ui_loop := []; trace := [] |}.

(** An interpreter without encore. *)
Definition no_encore : interpreter :=
  {| import_failure := fun m =>
       if String.prefix "encore" m then Some ImportError else None;
     namespace_of := fun _ => ∅ |}.


End Sample.

(** * Properties *)

(** ** Loops *)

Section WhileLoop.

Context {S : Type} (cond : S -> result bool) (body : S -> S).

(** A loop that returns has run some number [k] of iterations: the condition
    held before each of them and fails in the state returned. *)
Lemma while_loop_returns (fuel : nat) (s s' : S) :
  while_loop fuel cond body s = Ret s' ->
  exists k : nat,
    s' = Nat.iter k body s /\ cond s' = Ret false /\
    forall j : nat, (j < k)%nat -> cond (Nat.iter j body s) = Ret true.
Proof.
  revert s. induction fuel as [|fuel IH]; intros s; simpl; [discriminate|].
  destruct (cond s) as [[|]| |] eqn:Hc; simpl; try discriminate.
  - intros Hloop. destruct (IH _ Hloop) as (k & Hk & Hstop & Hrun).
    exists (Datatypes.S k). rewrite Nat.iter_succ_r. repeat split; trivial.
    intros [|j] Hj; [exact Hc|].
    rewrite Nat.iter_succ_r. apply Hrun. lia.
  - intros [= <-]. exists O. repeat split; trivial. intros j Hj. lia.
Qed.

(** Enough fuel lets the loop return at the first state whose condition
    fails. *)
Lemma while_loop_enough_fuel (k fuel : nat) (s : S) :
  cond (Nat.iter k body s) = Ret false ->
  (forall j : nat, (j < k)%nat -> cond (Nat.iter j body s) = Ret true) ->
  (k < fuel)%nat ->
  while_loop fuel cond body s = Ret (Nat.iter k body s).
Proof.
  revert fuel s. induction k as [|k IH]; intros [|fuel] s Hstop Hrun Hfuel;
    try lia.
  - simpl in *. rewrite Hstop. reflexivity.
  - pose proof (Hrun O ltac:(lia)) as H0. simpl in H0.
    rewrite Nat.iter_succ_r. cbn [while_loop]. rewrite H0. cbn.
    apply IH; [now rewrite <- Nat.iter_succ_r| |lia].
    intros j Hj. rewrite <- Nat.iter_succ_r. apply Hrun. lia.
Qed.

(** A condition that holds after every number of iterations uses up any
    fuel. *)
Lemma while_loop_hangs (fuel : nat) (s : S) :
  (forall k : nat, cond (Nat.iter k body s) = Ret true) ->
  while_loop fuel cond body s = Hang.
Proof.
  revert s. induction fuel as [|fuel IH]; intros s Hrun; simpl; [reflexivity|].
  pose proof (Hrun O) as H0. simpl in H0. rewrite H0. simpl. apply IH.
  intros k. rewrite <- Nat.iter_succ_r. apply Hrun.
Qed.

End WhileLoop.

(** The first index at which a boolean predicate holds, when it holds
    somewhere. *)
Lemma first_true (p : nat -> bool) (k0 : nat) :
  p k0 = true ->
  exists k : nat,
    (k <= k0)%nat /\ p k = true /\ forall j : nat, (j < k)%nat -> p j = false.
Proof.
  revert p. induction k0 as [|k0 IH]; intros p Hp.
  - exists O. repeat split; trivial. intros j Hj. lia.
  - destruct (p O) eqn:H0.
    + exists O. repeat split; [lia|trivial|]. intros j Hj. lia.
    + destruct (IH (fun j => p (Datatypes.S j)) Hp) as (k & Hle & Hk & Hlt).
      exists (Datatypes.S k). repeat split; [lia|trivial|].
      intros [|j] Hj; [exact H0|]. apply Hlt. lia.
Qed.

(** ** The zoom coordinates and the necessary LOD *)

Section PlotFacts.

Context {ndarray kiva_array : Type} `{!ImageBackend ndarray kiva_array}.

Abbreviation Plot := (LODImagePlot ndarray kiva_array).
Abbreviation world := (World ndarray kiva_array).

(** When [_calc_zoom_coords] returns a screen rectangle, it is the list
    [draw_bounds], which has four items, and the index bounds are not
    [None]. *)
Lemma zoom_coords_screen_rect (self : Plot) (image_rect : rect)
  (ib : option index_bounds) (sr : list Q) :
  _calc_zoom_coords self image_rect = Ret (ib, Some sr) ->
  sr = draw_bounds self /\
  (exists x y w h : Q, sr = [x; y; w; h]) /\
  exists b : index_bounds, ib = Some b.
Proof.
  unfold _calc_zoom_coords.
  destruct (draw_bounds self) as [|x [|y [|w [|h [|]]]]]; try discriminate.
  destruct (zero_in [w; h] || zero_in (bounds self)); [discriminate|].
  destruct image_rect as [[[ix iy] iw] ih].
  do 4 (match goal with
        | |- context [scaled_index ?a ?b ?c] =>
          destruct (scaled_index a b c); simpl; try discriminate
        end).
  intros [= <- <-]. eauto 10.
Qed.

(** The loop's state after [k] iterations. *)
Lemma lod_decrement_iter (self : Plot) (ib : option index_bounds) (k : nat)
  (l : Z) :
  Nat.iter k (lod_decrement self ib)
    (l, lod_bounds_from_nominal_bounds (value self) ib l)
  = (l - Z.of_nat k,
     lod_bounds_from_nominal_bounds (value self) ib (l - Z.of_nat k)).
Proof.
  induction k as [|k IH].
  - simpl. now rewrite Z.sub_0_r.
  - rewrite Nat.iter_succ, IH. unfold lod_decrement. simpl fst.
    now replace (l - Z.of_nat k - 1) with (l - Z.of_nat (Datatypes.S k)) by lia.
Qed.

(** The loop condition is the negation of [spans_screen]. *)
Lemma lod_too_coarse_spans (self : Plot) (ib : option index_bounds)
  (x y w h : Q) (l : Z) :
  lod_too_coarse [w; h]
    (l, lod_bounds_from_nominal_bounds (value self) ib l)
  = Ret (negb (spans_screen self ib [x; y; w; h] l)).
Proof.
  unfold lod_too_coarse, spans_screen, Qltb.
  destruct (lod_bounds_from_nominal_bounds (value self) ib l)
    as [[[col_min col_max] row_min] row_max].
  simpl. destruct (Qle_bool w _); simpl; [|reflexivity].
  destruct (Qle_bool h _); reflexivity.
Qed.

(** [_get_necessary_lod] returns [n] exactly when [n] is the first LOD,
    counting down from [maximum_lod], whose image spans the screen area, and
    the fuel covers the iterations down to it. *)
Lemma necessary_lod_returns_iff (fuel : nat) (self : Plot)
  (ib : option index_bounds) (sr : list Q) (n : Z) :
  _calc_zoom_coords self (_calc_virtual_screen_bbox self) = Ret (ib, Some sr) ->
  _get_necessary_lod fuel self = Ret n <->
  n <= maximum_lod self /\
  spans_screen self ib sr n = true /\
  (forall l : Z, n < l <= maximum_lod self ->
                 spans_screen self ib sr l = false) /\
  (Z.to_nat (maximum_lod self - n) < fuel)%nat.
Proof.
  intros Hzoom. unfold _get_necessary_lod. rewrite Hzoom. simpl.
  destruct (zoom_coords_screen_rect _ _ _ _ Hzoom) as (_ & (x & y & w & h & ->) & _).
  simpl drop.
  set (cond := lod_too_coarse [w; h]).
  set (body := lod_decrement self ib).
  set (s0 := (maximum_lod self,
              lod_bounds_from_nominal_bounds (value self) ib (maximum_lod self))).
  assert (Hcond : forall k : nat,
    cond (Nat.iter k body s0)
    = Ret (negb (spans_screen self ib [x; y; w; h]
                   (maximum_lod self - Z.of_nat k)))).
  { intros k. subst cond body s0. rewrite lod_decrement_iter.
    apply lod_too_coarse_spans. }
  split.
  - destruct (while_loop fuel cond body s0) as [st| |] eqn:Hloop;
      simpl; try discriminate.
    intros [= <-].
    assert (Hfuel : forall (f : nat) (s s' : lod_state),
      while_loop f cond body s = Ret s' ->
      (Z.to_nat (fst s - fst s') < f)%nat).
    { clear. induction f as [|f IH]; intros s s'; simpl; [discriminate|].
      destruct (cond s) as [[|]| |]; simpl; try discriminate.
      - intros Hl. specialize (IH _ _ Hl). unfold body, lod_decrement in IH.
        simpl in IH. lia.
      - intros [= <-]. lia. }
    specialize (Hfuel _ _ _ Hloop).
    destruct (while_loop_returns _ _ _ _ _ Hloop) as (k & -> & Hstop & Hrun).
    rewrite Hcond in Hstop. injection Hstop as Hstop.
    apply negb_false_iff in Hstop.
    subst s0 body. rewrite lod_decrement_iter in *. simpl fst in *.
    repeat split; [lia|exact Hstop| |exact Hfuel].
    intros l Hl.
    specialize (Hrun (Z.to_nat (maximum_lod self - l)) ltac:(lia)).
    rewrite Hcond in Hrun. injection Hrun as Hrun.
    apply negb_true_iff in Hrun.
    now replace (maximum_lod self - Z.of_nat (Z.to_nat (maximum_lod self - l)))
      with l in Hrun by lia.
  - intros (Hle & Hspan & Hfirst & Hfuel).
    rewrite (while_loop_enough_fuel cond body
               (Z.to_nat (maximum_lod self - n)) fuel s0).
    + subst s0 body. rewrite lod_decrement_iter. simpl. f_equal. lia.
    + rewrite Hcond.
      replace (maximum_lod self - Z.of_nat (Z.to_nat (maximum_lod self - n)))
        with n by lia.
      now rewrite Hspan.
    + intros j Hj. rewrite Hcond, Hfirst; [reflexivity|lia].
    + exact Hfuel.
Qed.


(** C7: once the loop of [_get_necessary_lod] is reached, it returns for
    some fuel exactly when some LOD not exceeding [maximum_lod] spans the
    screen area; when none does, every amount of fuel is used up, and after
    any number [k] of iterations [lod] is [maximum_lod - k] with the loop
    condition still true. *)
Theorem necessary_lod_loop_terminates_iff (self : Plot)
  (ib : option index_bounds) (sr : list Q) :
  _calc_zoom_coords self (_calc_virtual_screen_bbox self) = Ret (ib, Some sr) ->
  ((exists (fuel : nat) (n : Z), _get_necessary_lod fuel self = Ret n) <->
   (exists l : Z, l <= maximum_lod self /\ spans_screen self ib sr l = true))
  /\
  ((forall l : Z, l <= maximum_lod self -> spans_screen self ib sr l = false) ->
   (forall fuel : nat, _get_necessary_lod fuel self = Hang) /\
   forall k : nat,
     let st :=
       Nat.iter k (lod_decrement self ib)
         (maximum_lod self,
          lod_bounds_from_nominal_bounds (value self) ib (maximum_lod self)) in
     fst st = maximum_lod self - Z.of_nat k /\
     lod_too_coarse (drop 2 sr) st = Ret true).
Proof.
  intros Hzoom. split; [split|].
  - intros (fuel & n & Hret).
    apply (necessary_lod_returns_iff fuel self ib sr n Hzoom) in Hret.
    exists n. tauto.
  - intros (l & Hle & Hspan).
    destruct (first_true
                (fun k => spans_screen self ib sr (maximum_lod self - Z.of_nat k))
                (Z.to_nat (maximum_lod self - l))) as (k & Hk & Hspank & Hfirst).
    { now replace (maximum_lod self
                   - Z.of_nat (Z.to_nat (maximum_lod self - l))) with l by lia. }
    exists (Datatypes.S k), (maximum_lod self - Z.of_nat k).
    apply (necessary_lod_returns_iff _ self ib sr _ Hzoom).
    repeat split; [lia|exact Hspank| |lia].
    intros l' Hl'.
    specialize (Hfirst (Z.to_nat (maximum_lod self - l')) ltac:(lia)).
    simpl in Hfirst.
    now replace (maximum_lod self
                 - Z.of_nat (Z.to_nat (maximum_lod self - l'))) with l'
      in Hfirst by lia.
  - intros Hnone.
    destruct (zoom_coords_screen_rect _ _ _ _ Hzoom)
      as (_ & (x & y & w & h & ->) & _).
    assert (Hcond : forall k : nat,
      lod_too_coarse [w; h]
        (Nat.iter k (lod_decrement self ib)
           (maximum_lod self,
            lod_bounds_from_nominal_bounds (value self) ib (maximum_lod self)))
      = Ret true).
    { intros k. rewrite lod_decrement_iter, (lod_too_coarse_spans _ _ x y).
      rewrite Hnone; [reflexivity|lia]. }
    split.
    + intros fuel. unfold _get_necessary_lod. rewrite Hzoom. simpl.
      now rewrite while_loop_hangs.
    + intros k. simpl. split; [|apply Hcond].
      now rewrite lod_decrement_iter.
Qed.

(** ** Invalidation, rendering and cache computation *)

(** The zoom coordinates and the necessary LOD only read the view. *)
Lemma zoom_coords_same_view (p q : Plot) (image_rect : rect) :
  same_view p q -> _calc_zoom_coords p image_rect = _calc_zoom_coords q image_rect.
Proof.
  intros (Hv & Hd & Hb & Hx & Hy & _ & _).
  unfold _calc_zoom_coords. now rewrite Hv, Hd, Hb, Hx, Hy.
Qed.

Lemma necessary_lod_same_view (fuel : nat) (p q : Plot) :
  same_view p q -> _get_necessary_lod fuel p = _get_necessary_lod fuel q.
Proof.
  intros Hview. unfold _get_necessary_lod, _calc_virtual_screen_bbox.
  rewrite (zoom_coords_same_view p q _ Hview).
  destruct Hview as (Hv & _ & _ & _ & _ & Hm & Hr).
  unfold lod_decrement. now rewrite Hv, Hm, Hr.
Qed.

#[local] Instance same_view_equivalence :
  Equivalence (@same_view ndarray kiva_array).
Proof.
  split.
  - intros p. unfold same_view. tauto.
  - intros p q. unfold same_view. intuition congruence.
  - intros p q r. unfold same_view. intuition congruence.
Qed.

Lemma necessary_lod_reaches_loop (fuel : nat) (self : Plot) (n : Z) :
  _get_necessary_lod fuel self = Ret n ->
  exists (ib : option index_bounds) (sr : list Q),
    _calc_zoom_coords self (_calc_virtual_screen_bbox self) = Ret (ib, Some sr).
Proof.
  unfold _get_necessary_lod.
  destruct (_calc_zoom_coords self (_calc_virtual_screen_bbox self))
    as [[ib [sr|]]| |]; simpl; try discriminate.
  eauto.
Qed.

Lemma necessary_lod_le_maximum (fuel : nat) (self : Plot) (n : Z) :
  _get_necessary_lod fuel self = Ret n -> n <= maximum_lod self.
Proof.
  intros Hret.
  destruct (necessary_lod_reaches_loop _ _ _ Hret) as (ib & sr & Hzoom).
  apply (necessary_lod_returns_iff fuel self ib sr n Hzoom) in Hret. tauto.
Qed.

(** A read of [necessary_lod] gives the cached value, or else the getter's
    value, which it caches. *)
Lemma necessary_lod_cases (fuel : nat) (self self' : Plot) (v : Z) :
  necessary_lod fuel self = Ret (v, self') <->
  (_traits_cache_necessary_lod self = Some v /\ self' = self) \/
  (_traits_cache_necessary_lod self = None /\
   _get_necessary_lod fuel self = Ret v /\
   self' = set__traits_cache_necessary_lod (Some v) self).
Proof.
  unfold necessary_lod.
  destruct (_traits_cache_necessary_lod self) as [c|].
  - split.
    + intros [= <- <-]. now left.
    + intros [[[= ->] ->]|[? _]]; [reflexivity|discriminate].
  - destruct (_get_necessary_lod fuel self) as [n| |]; simpl; split;
      try discriminate;
      try (intros [[? _]|(_ & ? & _)]; discriminate).
    + intros [= <- <-]. right. now repeat split.
    + intros [[? _]|(_ & [= ->] & ->)]; [discriminate|reflexivity].
Qed.

(** A read only depends on the view and on the cache, and leaves a plot
    that has the value cached. *)
Lemma necessary_lod_same_source (fuel : nat) (p q p' : Plot) (v : Z) :
  same_view p q ->
  _traits_cache_necessary_lod p = _traits_cache_necessary_lod q ->
  necessary_lod fuel p = Ret (v, p') ->
  necessary_lod fuel q
  = Ret (v, set__traits_cache_necessary_lod (Some v) q).
Proof.
  intros Hview Hcache Hread. apply necessary_lod_cases in Hread.
  unfold necessary_lod. rewrite <- Hcache.
  destruct Hread as [[Hc _]|(Hc & Hget & _)]; rewrite Hc.
  - rewrite Hcache in Hc. destruct q. simpl in Hc. now rewrite Hc.
  - now rewrite <- (necessary_lod_same_view fuel _ _ Hview), Hget.
Qed.

Lemma necessary_lod_cached (fuel : nat) (self : Plot) (v : Z) :
  _traits_cache_necessary_lod self = Some v ->
  necessary_lod fuel self = Ret (v, self).
Proof. intros Hc. apply necessary_lod_cases. now left. Qed.


(** What a completed cache computation leaves behind, when a read of
    [necessary_lod] gives [v]. *)
Lemma compute_cached_image_done (fuel : nat) (th : thread)
  (mapper : option (ndarray -> ndarray)) (w : world) (v : Z) (p0 : Plot)
  (ib : option index_bounds) (sr : option (list Q)) :
  necessary_lod fuel (plot w) = Ret (v, p0) ->
  _calc_zoom_coords (plot w) (_calc_virtual_screen_bbox (plot w))
  = Ret (ib, sr) ->
  let filled :=
    with_plot (set__traits_cache_necessary_lod (Some v))
      (fire_new_cache_ready th
         (with_plot (set__image_cache_valid true)
            (with_plot (set__cached_dest_rect sr)
               (with_plot
                  (set__cached_image
                     (Some (_kiva_array_from_numpy_array
                              (_get_data_slice (plot w) ib mapper)))) w)))) in
  lod (plot filled) = lod (plot w) /\
  same_view (plot w) (plot filled) /\
  _compute_cached_image fuel th mapper w
  = Done (if v <? lod (plot w)
          then assign_lod th (lod (plot w) - 1) filled
          else filled).
Proof.
  intros Hread Hzoom filled.
  assert (Hlod : lod (plot filled) = lod (plot w)) by (destruct th; reflexivity).
  assert (Hview : same_view (plot w) (plot filled))
    by (destruct th; repeat split; reflexivity).
  repeat split; try apply Hview; trivial.
  unfold _compute_cached_image. rewrite Hzoom.
  match goal with
  | |- context [necessary_lod fuel (plot ?u)] => set (w4 := u)
  end.
  assert (Hview4 : same_view (plot w) (plot w4))
    by (subst w4; destruct th; repeat split; reflexivity).
  assert (Hcache4 :
    _traits_cache_necessary_lod (plot w)
    = _traits_cache_necessary_lod (plot w4))
    by (subst w4; destruct th; reflexivity).
  rewrite (necessary_lod_same_source fuel _ _ _ _ Hview4 Hcache4 Hread).
  change (with_plot
            (fun _ => set__traits_cache_necessary_lod (Some v) (plot w4)) w4)
    with filled.
  rewrite Hlod. now destruct (v <? lod (plot w)).
Qed.


Lemma assign_lod_decrement (th : thread) (w : world) (l : Z) :
  lod (plot w) = l ->
  assign_lod th (l - 1) w
  = dispatch_ui th HandleLodLevelChange (with_plot (set_lod (l - 1)) w).
Proof.
  intros <-. unfold assign_lod.
  destruct (Z.eqb_spec (lod (plot w)) (lod (plot w) - 1)); [lia|reflexivity].
Qed.

(** One completed computation: the view stays, the value stays cached, and
    [lod] goes down by one exactly when it is above the value. *)
Lemma compute_cached_image_step (fuel : nat) (th : thread)
  (mapper : option (ndarray -> ndarray)) (w : world) (v : Z) (p0 : Plot)
  (ib : option index_bounds) (sr : option (list Q)) :
  necessary_lod fuel (plot w) = Ret (v, p0) ->
  _calc_zoom_coords (plot w) (_calc_virtual_screen_bbox (plot w))
  = Ret (ib, sr) ->
  exists w' : world,
    _compute_cached_image fuel th mapper w = Done w' /\
    same_view (plot w) (plot w') /\
    _traits_cache_necessary_lod (plot w') = Some v /\
    lod (plot w')
    = (if v <? lod (plot w) then lod (plot w) - 1 else lod (plot w)).
Proof.
  intros Hread Hzoom.
  destruct (compute_cached_image_done fuel th mapper w v p0 ib sr Hread Hzoom)
    as (Hlod & Hview & ->).
  eexists. split; [reflexivity|].
  destruct (v <? lod (plot w)).
  - rewrite assign_lod_decrement by exact Hlod.
    destruct th; simpl; repeat split; reflexivity.
  - destruct th; simpl; repeat split; reflexivity.
Qed.

(** [k] computations in a row under a view on which [_calc_zoom_coords]
    returns: [lod] goes down by one per computation until it meets the value
    of the property. *)
Lemma cache_computations_lod (fuel : nat) (th : thread)
  (mapper : option (ndarray -> ndarray)) (k : nat) (w : world) (v : Z)
  (p0 : Plot) (ib : option index_bounds) (sr : option (list Q)) :
  necessary_lod fuel (plot w) = Ret (v, p0) ->
  _calc_zoom_coords (plot w) (_calc_virtual_screen_bbox (plot w))
  = Ret (ib, sr) ->
  exists w' : world,
    cache_computations fuel th mapper k w = Done w' /\
    same_view (plot w) (plot w') /\
    lod (plot w')
    = Z.min (lod (plot w)) (Z.max v (lod (plot w) - Z.of_nat k)).
Proof.
  revert w p0. induction k as [|k IH]; intros w p0 Hread Hzoom.
  - exists w. split; [reflexivity|]. split; [reflexivity|]. lia.
  - destruct (compute_cached_image_step fuel th mapper w v p0 ib sr Hread
                Hzoom) as (w1 & Hrun1 & Hview1 & Hcache1 & Hlod1).
    assert (Hzoom1 :
      _calc_zoom_coords (plot w1) (_calc_virtual_screen_bbox (plot w1))
      = Ret (ib, sr)).
    { rewrite <- (zoom_coords_same_view _ _ _ Hview1).
      unfold _calc_virtual_screen_bbox in *.
      destruct Hview1 as (_ & _ & _ & _ & _ & _ & <-). exact Hzoom. }
    destruct (IH w1 _ (necessary_lod_cached fuel _ _ Hcache1) Hzoom1)
      as (w' & Hrun & Hview & Hlod).
    exists w'. cbn [cache_computations]. rewrite Hrun1.
    split; [exact Hrun|]. split; [now transitivity (plot w1)|].
    rewrite Hlod, Hlod1.
    destruct (Z.ltb_spec v (lod (plot w))); lia.
Qed.

(** C4: the handler of a [draw_bounds] change leaves [lod] at
    [maximum_lod], the serializer's queue of pending operations empty and
    the image cache invalid, and its last call is the superclass's
    [invalidate_draw]. *)
Theorem draw_bounds_change_resets (th : thread) (w : world) :
  let w' := handle_draw_bounds_change th w in
  lod (plot w') = maximum_lod (plot w) /\
  maximum_lod (plot w') = maximum_lod (plot w) /\
  _pending_operations (_serializer (plot w')) = [] /\
  _image_cache_valid (plot w') = false /\
  exists before : list (effect kiva_array),
    trace w' = trace w ++ before ++ [SuperInvalidateDraw].
Proof.
  unfold handle_draw_bounds_change, assign_lod.
  destruct (Z.eqb_spec (lod (plot w)) (maximum_lod (plot w))) as [Heq|Hne].
  - simpl. repeat split; trivial. now exists [].
  - destruct th; simpl; repeat split; trivial.
    + exists [SuperInvalidateDraw]. now rewrite <- app_assoc.
    + now exists [].
Qed.


(** C3, as the code has it: with [v] the value of the property
    [necessary_lod] (cached across the computations) and a view on which
    [_calc_zoom_coords] returns, a cache computation completes and never
    raises [lod]; it lowers [lod] by exactly one if and only if [lod > v]; it
    does not take [lod] below [v]; and the property stays [v].  After [k]
    computations [lod] has gone down by one per computation until it met
    [v]: starting at or above [v] it reaches [v] after [lod - v]
    computations and stays there. *)
Theorem lod_refines_to_necessary (fuel : nat) (w : world) (v : Z)
  (p0 : Plot) (ib : option index_bounds) (sr : option (list Q)) :
  necessary_lod fuel (plot w) = Ret (v, p0) ->
  _calc_zoom_coords (plot w) (_calc_virtual_screen_bbox (plot w))
  = Ret (ib, sr) ->
  (forall (th : thread) (mapper : option (ndarray -> ndarray)),
     exists w' : world,
       _compute_cached_image fuel th mapper w = Done w' /\
       lod (plot w') <= lod (plot w) /\
       (lod (plot w') = lod (plot w) - 1 <-> v < lod (plot w)) /\
       (v <= lod (plot w) -> v <= lod (plot w')) /\
       necessary_lod fuel (plot w') = Ret (v, plot w')) /\
  (forall (th : thread) (mapper : option (ndarray -> ndarray)) (k : nat),
     exists w' : world,
       cache_computations fuel th mapper k w = Done w' /\
       lod (plot w')
       = Z.min (lod (plot w)) (Z.max v (lod (plot w) - Z.of_nat k)) /\
       (v <= lod (plot w) -> lod (plot w) - v <= Z.of_nat k ->
        lod (plot w') = v)).
Proof.
  intros Hread Hzoom. split.
  - intros th mapper.
    destruct (compute_cached_image_step fuel th mapper w v p0 ib sr Hread
                Hzoom) as (w' & Hrun & _ & Hcache & Hlod).
    exists w'. split; [exact Hrun|]. rewrite Hlod.
    destruct (Z.ltb_spec v (lod (plot w))); repeat split; try lia.
    + now apply necessary_lod_cached.
    + now apply necessary_lod_cached.
  - intros th mapper k.
    destruct (cache_computations_lod fuel th mapper k w v p0 ib sr Hread
                Hzoom) as (w' & Hrun & _ & Hlod).
    exists w'. repeat split; trivial; lia.
Qed.

(** [_render] hands one job to the serializer when the cache is invalid and
    none otherwise; it leaves the validity of the cache alone. *)
Lemma render_submissions (w : world) :
  submissions (_render w)
  = (submissions w + if _image_cache_valid (plot w) then 0 else 1)%nat /\
  _image_cache_valid (plot (_render w)) = _image_cache_valid (plot w).
Proof.
  unfold _render, submissions.
  destruct (_image_cache_valid (plot w)) eqn:Hvalid; simpl;
    match goal with
    | |- context [match ?o with Some _ => _ | None => _ end] => destruct o
    end; simpl; rewrite ?List.filter_app, ?length_app; simpl;
    (split; [lia|exact Hvalid]).
Qed.

(** C2, as the code has it: [_render] submits [_compute_cached_image] if
    and only if [_image_cache_valid] is [False], and it does so on every such
    call: [k] calls of [_render] made while the cache stays invalid submit
    [k] jobs. *)
Theorem render_submits_iff_cache_invalid (w : world) :
  (submissions (_render w) = Datatypes.S (submissions w) <->
   _image_cache_valid (plot w) = false) /\
  (submissions (_render w) = submissions w <->
   _image_cache_valid (plot w) = true) /\
  forall k : nat,
    _image_cache_valid (plot (Nat.iter k _render w))
    = _image_cache_valid (plot w) /\
    submissions (Nat.iter k _render w)
    = (submissions w + if _image_cache_valid (plot w) then 0 else k)%nat.
Proof.
  destruct (render_submissions w) as [Hsub _].
  split; [|split].
  - rewrite Hsub. destruct (_image_cache_valid (plot w)); split;
      intros; try discriminate; trivial; lia.
  - rewrite Hsub. destruct (_image_cache_valid (plot w)); split;
      intros; try discriminate; trivial; lia.
  - induction k as [|k [IHvalid IHsub]].
    + simpl. split; [reflexivity|]. destruct (_image_cache_valid (plot w)); lia.
    + rewrite Nat.iter_succ.
      destruct (render_submissions (Nat.iter k _render w)) as [Hk Hv].
      rewrite Hk, Hv, IHvalid, IHsub. split; [reflexivity|].
      destruct (_image_cache_valid (plot w)); lia.
Qed.

End PlotFacts.

(** ** The index bounds of [_calc_zoom_coords] *)

Section ZoomCoords.

Context {ndarray kiva_array : Type}.

Abbreviation Plot := (LODImagePlot ndarray kiva_array).

(** With zero width or height of the draw bounds, or a zero among
    [self.bounds], the answer is [(None, None)]. *)
Lemma calc_zoom_coords_degenerate (self : Plot) (image_rect : rect)
  (x y w h : Q) :
  draw_bounds self = [x; y; w; h] ->
  (w == 0)%Q \/ (h == 0)%Q \/ zero_in (bounds self) = true ->
  _calc_zoom_coords self image_rect = Ret (None, None).
Proof.
  intros Hdb Hzero. unfold _calc_zoom_coords. rewrite Hdb.
  replace (zero_in [w; h] || zero_in (bounds self)) with true; [reflexivity|].
  symmetry. apply orb_true_iff.
  destruct Hzero as [Hw|[Hh|Hb]]; [left|left|right; exact Hb];
    unfold zero_in; simpl; apply orb_true_iff; [left|right; apply orb_true_iff; left];
    apply Qeq_bool_iff; now symmetry.
Qed.

(** After clipping and flipping, the lower indices are not negative and the
    upper indices do not exceed the last index of the array, whatever the raw
    indices were. *)
Lemma flip_clip_one_sided (x_flipped y_flipped : bool) (raw : index_bounds)
  (array_width array_height : Z) :
  let '(col_min, col_max, row_min, row_max) :=
    flip_bounds x_flipped y_flipped
      (clip_bounds raw array_width array_height) array_width array_height in
  0 <= col_min /\ col_max <= array_width /\
  0 <= row_min /\ row_max <= array_height.
Proof.
  destruct raw as [[[a b] c] d]. unfold flip_bounds, clip_bounds.
  destruct x_flipped, y_flipped; lia.
Qed.

(** The flips keep whatever order the clipped indices have. *)
Lemma flip_keeps_order (x_flipped y_flipped : bool) (b : index_bounds)
  (array_width array_height : Z) :
  let '(col_min, col_max, row_min, row_max) := b in
  let '(col_min', col_max', row_min', row_max') :=
    flip_bounds x_flipped y_flipped b array_width array_height in
  (col_min' <= col_max' <-> col_min <= col_max) /\
  (row_min' <= row_max' <-> row_min <= row_max).
Proof.
  destruct b as [[[c0 c1] r0] r1]. unfold flip_bounds.
  destruct x_flipped, y_flipped; lia.
Qed.

(** Raw indices that overlap the array keep their order through the
    clipping and the flips. *)
Lemma flip_clip_ordered (x_flipped y_flipped : bool)
  (raw_col_min raw_col_max raw_row_min raw_row_max : Z)
  (array_width array_height : Z) :
  raw_col_min <= raw_col_max -> raw_col_min <= array_width ->
  0 <= raw_col_max -> 0 <= array_width ->
  raw_row_min <= raw_row_max -> raw_row_min <= array_height ->
  0 <= raw_row_max -> 0 <= array_height ->
  let '(col_min, col_max, row_min, row_max) :=
    flip_bounds x_flipped y_flipped
      (clip_bounds (raw_col_min, raw_col_max, raw_row_min, raw_row_max)
         array_width array_height) array_width array_height in
  0 <= col_min <= col_max /\ col_max <= array_width /\
  0 <= row_min <= row_max /\ row_max <= array_height.
Proof.
  intros. unfold flip_bounds, clip_bounds.
  destruct x_flipped, y_flipped; lia.
Qed.

(** Index bounds that are returned come with [draw_bounds] as the screen
    rectangle and are bounded on one side each. *)
Lemma calc_zoom_coords_returns (self : Plot) (image_rect : rect)
  (col_min col_max row_min row_max : Z) (sr : option (list Q)) :
  _calc_zoom_coords self image_rect
  = Ret (Some (col_min, col_max, row_min, row_max), sr) ->
  sr = Some (draw_bounds self) /\
  0 <= col_min /\ col_max <= get_width (value self) - 1 /\
  0 <= row_min /\ row_max <= get_height (value self) - 1.
Proof.
  unfold _calc_zoom_coords.
  destruct (draw_bounds self) as [|x [|y [|w [|h [|]]]]]; try discriminate.
  destruct (zero_in [w; h] || zero_in (bounds self)); [discriminate|].
  destruct image_rect as [[[ix iy] iw] ih].
  do 4 (match goal with
        | |- context [scaled_index ?a ?b ?c] =>
          destruct (scaled_index a b c); cbn -[flip_bounds clip_bounds];
          try discriminate
        end).
  match goal with
  | |- context [flip_bounds ?xf ?yf (clip_bounds ?raw ?aw ?ah) ?aw ?ah] =>
    pose proof (flip_clip_one_sided xf yf raw aw ah) as Hside;
    destruct (flip_bounds xf yf (clip_bounds raw aw ah) aw ah)
      as [[[c0 c1] r0] r1]
  end.
  intros [= <- <- <- <- <-]. split; [reflexivity|exact Hside].
Qed.

(** A zero width or height of the image rectangle is not guarded. *)
Lemma calc_zoom_coords_zero_image_width (self : Plot) (x y w h ix iy ih : Q) :
  draw_bounds self = [x; y; w; h] ->
  zero_in [w; h] || zero_in (bounds self) = false ->
  _calc_zoom_coords self (ix, iy, 0%Q, ih) = Raise ZeroDivisionError.
Proof.
  intros Hdb Hzero. unfold _calc_zoom_coords. rewrite Hdb, Hzero.
  reflexivity.
Qed.

End ZoomCoords.

(** C8: with the 10 x 10 thumbnail panned to the right of the drawing
    area, the guard does not fire and the index bounds returned are
    [(0, -81, 0, 9)]: [col_max] is negative and below [col_min]. *)
Theorem calc_zoom_coords_panned_away :
  zero_in (drop 2 (draw_bounds Sample.panned_away))
  || zero_in (bounds Sample.panned_away) = false /\
  _calc_zoom_coords Sample.panned_away
    (_calc_virtual_screen_bbox Sample.panned_away)
  = Ret (Some (0, -81, 0, 9), Some [0; 0; 10; 10]%Q).
Proof. split; vm_compute; reflexivity. Qed.

(** ** Importing the modules *)

(** C9: when the unconditional imports succeed and an encore import raises
    [ImportError], importing [lod_image_plot] ends in [sys.exit] with the
    message 'encore must be installed to use LODImagePlot'; when the encore
    imports succeed, the import never ends in [sys.exit]. *)
Theorem encore_import_guard (py : interpreter) :
  (import_modules py lod_image_plot.required_imports = None ->
   import_modules py lod_image_plot.encore_imports = Some ImportError ->
   lod_image_plot.import_module py
   = SystemExit "encore must be installed to use LODImagePlot") /\
  (import_modules py lod_image_plot.encore_imports = None ->
   forall msg : string, lod_image_plot.import_module py <> SystemExit msg).
Proof.
  unfold lod_image_plot.import_module. split.
  - intros -> ->. reflexivity.
  - intros ->. intros msg.
    destruct (import_modules py lod_image_plot.required_imports);
      [discriminate|].
    destruct (import_modules py lod_image_plot.package_imports); discriminate.
Qed.



(** ** The properties on the sample objects *)



(** The loop returns on the fitted pyramid and hangs on the thumbnail that
    was panned away, whose bounds never span the drawing area. *)
Lemma necessary_lod_loop_terminates_iff_samples :
  ((exists (fuel : nat) (n : Z), _get_necessary_lod fuel Sample.fitted = Ret n)
   <->
   (exists l : Z,
      l <= maximum_lod Sample.fitted /\
      spans_screen Sample.fitted (Some (0, 1023, 0, 1023))
        [0; 0; 100; 100]%Q l = true)) /\
  forall fuel : nat, _get_necessary_lod fuel Sample.panned_away = Hang.
Proof.
  split.
  - apply (necessary_lod_loop_terminates_iff Sample.fitted
             (Some (0, 1023, 0, 1023)) [0; 0; 100; 100]%Q).
    vm_compute; reflexivity.
  - apply (necessary_lod_loop_terminates_iff Sample.panned_away
             (Some (0, -81, 0, 9)) [0; 0; 10; 10]%Q).
    + vm_compute; reflexivity.
    + intros l _. reflexivity.
Defined.

(** Two renders after one invalidation submit two jobs. *)
Lemma render_twice_submits_twice :
  ~ one_submission_per_invalidation (Sample.start Sample.fitted).
Proof.
  intros Hclaim. specialize (Hclaim eq_refl 2%nat).
  vm_compute in Hclaim. lia.
Qed.

(** On the fitted pyramid [lod] goes from 9 down to 3, one per
    computation. *)
Lemma lod_refines_to_necessary_fitted :
  necessary_lod 10 (plot (Sample.start Sample.fitted))
  = Ret (3, Sample.fitted_read) /\
  forall k : nat,
    exists w' : World (list Z) (list Z),
      cache_computations 10 WorkerThread None k (Sample.start Sample.fitted)
      = Done w' /\
      lod (plot w') = Z.min 9 (Z.max 3 (9 - Z.of_nat k)).
Proof.
  split; [vm_compute; reflexivity|]. intros k.
  destruct (proj2 (lod_refines_to_necessary 10 (Sample.start Sample.fitted) 3
                     Sample.fitted_read (Some (0, 1023, 0, 1023))
                     (Some [0; 0; 100; 100]%Q) eq_refl eq_refl)
              WorkerThread None k) as (w' & Hrun & Hlod & _).
  exists w'. split; [exact Hrun|exact Hlod].
Defined.

(** With 3 cached and [maximum_lod] lowered to 2, [lod] starts at 2 and no
    number of computations brings it to 3. *)
Lemma lowered_maximum_never_refines :
  ~ refines_until_necessary_lod 10 (Sample.start Sample.lowered).
Proof.
  intros Hclaim.
  destruct (Hclaim eq_refl 3 Sample.lowered eq_refl) as (k & w' & Hrun & Hlod).
  destruct (cache_computations_lod 10 WorkerThread None k
              (Sample.start Sample.lowered) 3 Sample.lowered
              (Some (0, 1023, 0, 1023)) (Some [0; 0; 100; 100]%Q)
              eq_refl eq_refl) as (w1 & Hrun1 & _ & Hlod1).
  rewrite Hrun in Hrun1. injection Hrun1 as <-.
  rewrite Hlod in Hlod1. simpl in Hlod1. lia.
Qed.


(** Without encore the import exits. *)
Lemma encore_import_guard_no_encore :
  lod_image_plot.import_module Sample.no_encore
  = SystemExit "encore must be installed to use LODImagePlot".
Proof.
  apply (proj1 (encore_import_guard Sample.no_encore)); reflexivity.
Defined.


(** * Further properties of the code *)

From Stdlib Require Import Lqa.

(** ** [int()] on rationals *)

Lemma py_int_inject_Z (z : Z) : py_int (inject_Z z) = z.
Proof. unfold py_int. simpl. apply Z.quot_1_r. Qed.

Lemma py_int_mono (q r : Q) : (q <= r)%Q -> py_int q <= py_int r.
Proof.
  unfold py_int, Qle. destruct q as [a b], r as [c d]. simpl. intros Hle.
  rewrite <- (Z.quot_mul_cancel_r a (Z.pos b) (Z.pos d)) by lia.
  rewrite <- (Z.quot_mul_cancel_r c (Z.pos d) (Z.pos b)) by lia.
  rewrite (Z.mul_comm (Z.pos d) (Z.pos b)).
  apply Z.quot_le_mono; lia.
Qed.

Lemma py_int_Qeq (q r : Q) : (q == r)%Q -> py_int q = py_int r.
Proof.
  intros Heq. apply Z.le_antisymm; apply py_int_mono; rewrite Heq;
    apply Qle_refl.
Qed.

(** ** More on [_calc_zoom_coords] *)

Section ZoomCoordsOutcomes.

Context {ndarray kiva_array : Type}.

Abbreviation Plot := (LODImagePlot ndarray kiva_array).


(** X5: Flipping twice gives the bounds back, and a flip keeps the extents
    [col_max - col_min] and [row_max - row_min]. *)
Theorem flip_bounds_involutive (x_flipped y_flipped : bool)
  (b : index_bounds) (array_width array_height : Z) :
  flip_bounds x_flipped y_flipped
    (flip_bounds x_flipped y_flipped b array_width array_height)
    array_width array_height = b /\
  let '(col_min, col_max, row_min, row_max) := b in
  let '(col_min', col_max', row_min', row_max') :=
    flip_bounds x_flipped y_flipped b array_width array_height in
  col_max' - col_min' = col_max - col_min /\
  row_max' - row_min' = row_max - row_min.
Proof.
  destruct b as [[[c0 c1] r0] r1]. unfold flip_bounds.
  destruct x_flipped, y_flipped; split; try (split; lia);
    repeat f_equal; lia.
Qed.

(** X3: When the draw rectangle overlaps an image rectangle of positive size
    and the array is not empty, the index bounds are ordered and lie within
    the array, flipped or not. *)
Theorem calc_zoom_coords_ordered_when_overlapping (self : Plot)
  (sub_x sub_y sub_width sub_height image_x image_y image_width image_height
     : Q) :
  draw_bounds self = [sub_x; sub_y; sub_width; sub_height] ->
  zero_in (bounds self) = false ->
  (0 < sub_width)%Q -> (0 < sub_height)%Q ->
  (0 < image_width)%Q -> (0 < image_height)%Q ->
  (image_x <= sub_x + sub_width)%Q -> (sub_x <= image_x + image_width)%Q ->
  (image_y <= sub_y + sub_height)%Q -> (sub_y <= image_y + image_height)%Q ->
  1 <= get_width (value self) -> 1 <= get_height (value self) ->
  exists col_min col_max row_min row_max : Z,
    _calc_zoom_coords self (image_x, image_y, image_width, image_height)
    = Ret (Some (col_min, col_max, row_min, row_max),
           Some (draw_bounds self)) /\
    0 <= col_min <= col_max /\ col_max <= get_width (value self) - 1 /\
    0 <= row_min <= row_max /\ row_max <= get_height (value self) - 1.
Proof.
  intros Hdb Hbounds Hsw Hsh Hiw Hih Hx1 Hx2 Hy1 Hy2 Hw Hh.
  assert (Hscaled : forall (a b d : Q) (n : Z),
    (0 < d)%Q -> (0 <= b)%Q -> (0 <= a + b)%Q -> (a <= d)%Q -> 0 <= n ->
    py_int (a / d * inject_Z n) <= py_int ((a + b) / d * inject_Z n) /\
    py_int (a / d * inject_Z n) <= n /\
    0 <= py_int ((a + b) / d * inject_Z n)).
  { intros a b d n Hd Hb Hab Had Hn.
    assert (Hn' : (0 <= inject_Z n)%Q)
      by (change 0%Q with (inject_Z 0); now rewrite <- Zle_Qle).
    assert (Hinv : (0 <= / d)%Q) by (apply Qlt_le_weak, Qinv_lt_0_compat, Hd).
    repeat split.
    - apply py_int_mono. unfold Qdiv.
      repeat apply Qmult_le_compat_r; trivial. lra.
    - rewrite <- (py_int_inject_Z n) at 2. apply py_int_mono.
      rewrite <- (Qmult_1_l (inject_Z n)) at 2.
      apply Qmult_le_compat_r; trivial.
      apply Qle_shift_div_r; trivial. lra.
    - change 0 with (py_int 0). apply py_int_mono.
      apply Qmult_le_0_compat; trivial.
      apply Qle_shift_div_l; trivial. lra. }
  destruct (Hscaled (sub_x - image_x)%Q sub_width image_width
              (get_width (value self) - 1)) as (Hc1 & Hc2 & Hc3);
    try lra; try lia.
  destruct (Hscaled (sub_y - image_y)%Q sub_height image_height
              (get_height (value self) - 1)) as (Hr1 & Hr2 & Hr3);
    try lra; try lia.
  unfold _calc_zoom_coords. rewrite Hdb.
  assert (Hguard : zero_in [sub_width; sub_height] = false).
  { unfold zero_in. simpl. rewrite !orb_false_r. apply orb_false_iff.
    split; apply not_true_iff_false; intros Heq; apply Qeq_bool_iff in Heq;
      lra. }
  rewrite Hguard, Hbounds. simpl orb. cbv iota.
  unfold scaled_index, truediv.
  assert (Hnz : forall d : Q, (0 < d)%Q -> Qeq_bool d 0 = false).
  { intros d Hd. apply not_true_iff_false. intros Heq.
    apply Qeq_bool_iff in Heq. lra. }
  rewrite (Hnz _ Hiw), (Hnz _ Hih). cbn -[flip_bounds clip_bounds py_int].
  pose proof (flip_clip_ordered (x_axis_is_flipped self)
                (y_axis_is_flipped self) _ _ _ _
                (get_width (value self) - 1) (get_height (value self) - 1)
                Hc1 Hc2 Hc3 ltac:(lia) Hr1 Hr2 Hr3 ltac:(lia)) as Hord.
  destruct (flip_bounds _ _ _ _ _) as [[[c0 c1] r0] r1].
  exists c0, c1, r0, r1. split; [reflexivity|exact Hord].
Qed.

(** X2: Whatever the rectangles, index bounds that are returned come with
    [draw_bounds] as screen rectangle, have lower indices that are not
    negative and upper indices within the last index of the array; nothing
    more holds in general, since the clipping bounds each index on one side
    only. *)
Theorem calc_zoom_coords_one_sided_bounds (self : Plot) (image_rect : rect)
  (col_min col_max row_min row_max : Z) (sr : option (list Q)) :
  _calc_zoom_coords self image_rect
  = Ret (Some (col_min, col_max, row_min, row_max), sr) ->
  sr = Some (draw_bounds self) /\
  0 <= col_min /\ col_max <= get_width (value self) - 1 /\
  0 <= row_min /\ row_max <= get_height (value self) - 1.
Proof.
  unfold _calc_zoom_coords.
  destruct (draw_bounds self) as [|x0 [|y0 [|w [|h [|]]]]]; try discriminate.
  destruct (zero_in [w; h] || zero_in (bounds self)); [discriminate|].
  destruct image_rect as [[[ix iy] iw] ih]. unfold scaled_index, truediv.
  destruct (Qeq_bool iw 0); [discriminate|].
  destruct (Qeq_bool ih 0); [discriminate|].
  cbn -[flip_bounds clip_bounds py_int].
  match goal with
  | |- context [flip_bounds ?xf ?yf (clip_bounds ?raw ?aw ?ah) ?aw ?ah] =>
    pose proof (flip_clip_one_sided xf yf raw aw ah) as Hside;
    destruct (flip_bounds xf yf (clip_bounds raw aw ah) aw ah)
      as [[[c0 c1] r0] r1]
  end.
  intros [= <- <- <- <- <-]. split; [reflexivity|exact Hside].
Qed.

(** X4: Drawing exactly the image rectangle selects the whole array, whatever
    the flips. *)
Theorem calc_zoom_coords_full_image (self : Plot) (x y w h : Q) :
  draw_bounds self = [x; y; w; h] ->
  zero_in [w; h] || zero_in (bounds self) = false ->
  _calc_zoom_coords self (x, y, w, h)
  = Ret (Some (0, get_width (value self) - 1,
               0, get_height (value self) - 1),
         Some (draw_bounds self)).
Proof.
  intros Hdb Hguard. unfold _calc_zoom_coords. rewrite Hdb, Hguard.
  apply orb_false_iff in Hguard as [Hwh _]. unfold zero_in in Hwh.
  simpl in Hwh. rewrite orb_false_r in Hwh.
  apply orb_false_iff in Hwh as [Hw Hh].
  assert (Hnz : forall d : Q, Qeq_bool 0 d = false -> Qeq_bool d 0 = false).
  { intros d Hd. apply not_true_iff_false. intros Heq.
    apply not_true_iff_false in Hd. apply Hd.
    apply Qeq_bool_iff. symmetry. now apply Qeq_bool_iff. }
  assert (Hne : forall d : Q, Qeq_bool 0 d = false -> ~ (d == 0)%Q).
  { intros d Hd Heq. apply not_true_iff_false in Hd. apply Hd.
    apply Qeq_bool_iff. now symmetry. }
  unfold scaled_index, truediv. rewrite (Hnz _ Hw), (Hnz _ Hh).
  cbn -[flip_bounds clip_bounds py_int].
  assert (Hlow : forall (a d : Q) (n : Z),
    py_int ((a - a) / d * inject_Z n) = 0).
  { intros a d n. rewrite <- (py_int_inject_Z 0). apply py_int_Qeq.
    unfold Qdiv. change (inject_Z 0) with 0%Q. ring. }
  assert (Hhigh : forall (a d : Q) (n : Z), ~ (d == 0)%Q ->
    py_int ((a - a + d) / d * inject_Z n) = n).
  { intros a d n Hd. rewrite <- (py_int_inject_Z n) at 2. apply py_int_Qeq.
    field. exact Hd. }
  rewrite !Hlow, (Hhigh _ _ _ (Hne _ Hw)), (Hhigh _ _ _ (Hne _ Hh)).
  unfold flip_bounds, clip_bounds.
  destruct (x_axis_is_flipped self), (y_axis_is_flipped self);
    now rewrite ?Z.max_id, ?Z.min_id, ?Z.sub_0_r, ?Z.sub_diag.
Qed.

End ZoomCoordsOutcomes.

(** ** Errors of [_get_necessary_lod] *)


Section NecessaryLodErrors.

Context {ndarray kiva_array : Type}.

Abbreviation Plot := (LODImagePlot ndarray kiva_array).


End NecessaryLodErrors.

(** ** The refinement cycle *)

(** One turn of the cycle the toolkit drives: the plot is rendered, the
    serializer's worker runs the job that was submitted, and the UI event
    loop runs the (up to) two handlers that the computation queued. *)
Definition refine_round : list call :=
  [CallRender; WorkerRunsJob; RunUIHandler; RunUIHandler].

Fixpoint refine_rounds (k : nat) : list call :=
  match k with
  | O => []
  | Datatypes.S k => refine_round ++ refine_rounds k
  end.

Section Refinement.

Context {ndarray kiva_array : Type} `{!ImageBackend ndarray kiva_array}.

Abbreviation Plot := (LODImagePlot ndarray kiva_array).
Abbreviation world := (World ndarray kiva_array).

(** The serializer's queue. *)
Definition pending (w : world) : list job :=
  _pending_operations (_serializer (plot w)).

Lemma same_view_trans (p q r : Plot) :
  same_view p q -> same_view q r -> same_view p r.
Proof. unfold same_view. intuition congruence. Qed.

Lemma run_app (fuel : nat) (cs1 cs2 : list call) (w w1 : world) :
  run fuel cs1 w = Done w1 -> run fuel (cs1 ++ cs2) w = run fuel cs2 w1.
Proof.
  revert w. induction cs1 as [|c cs1 IH]; intros w; simpl.
  - now intros [= ->].
  - destruct (step fuel c w); try discriminate. apply IH.
Qed.

Lemma submissions_emit (e : effect kiva_array) (w : world) :
  submissions (emit e w)
  = (submissions w + if is_submit e then 1 else 0)%nat.
Proof.
  unfold submissions, emit. simpl. rewrite List.filter_app, length_app.
  simpl. now destruct (is_submit e).
Qed.

Lemma zoom_coords_kept (p q : Plot) (ib : option index_bounds)
  (sr : option (list Q)) :
  same_view p q ->
  _calc_zoom_coords p (_calc_virtual_screen_bbox p) = Ret (ib, sr) ->
  _calc_zoom_coords q (_calc_virtual_screen_bbox q) = Ret (ib, sr).
Proof.
  intros Hview Hzoom. rewrite <- (zoom_coords_same_view _ _ _ Hview).
  unfold _calc_virtual_screen_bbox in *.
  destruct Hview as (_ & _ & _ & _ & _ & _ & <-). exact Hzoom.
Qed.

(** The worker runs the oldest job and the UI loop the two handlers the job
    may have queued, from an empty UI queue. *)
Lemma worker_then_handlers (fuel : nat) (w : world) (v : Z) (p0 : Plot)
  (ib : option index_bounds) (sr : option (list Q)) (rest : list job) :
  necessary_lod fuel (plot w) = Ret (v, p0) ->
  _calc_zoom_coords (plot w) (_calc_virtual_screen_bbox (plot w))
  = Ret (ib, sr) ->
  ui_loop w = [] ->
  pending w = ComputeCachedImage :: rest ->
  exists w' : world,
    run fuel [WorkerRunsJob; RunUIHandler; RunUIHandler] w = Done w' /\
    same_view (plot w) (plot w') /\
    _traits_cache_necessary_lod (plot w') = Some v /\
    submissions w' = submissions w /\
    pending w' = rest /\
    ui_loop w' = [] /\
    _cached_image (plot w')
    = Some (_kiva_array_from_numpy_array
              (get_data_bounded (value (plot w)) ib (lod (plot w)))) /\
    lod (plot w') = (if v <? lod (plot w) then lod (plot w) - 1
                     else lod (plot w)) /\
    _image_cache_valid (plot w') = negb (v <? lod (plot w)).
Proof.
  intros Hread Hzoom Hui Hpending. unfold pending in Hpending.
  set (u := with_plot (set__serializer {| _pending_operations := rest |}) w).
  assert (Hreadu :
    necessary_lod fuel (plot u)
    = Ret (v, set__traits_cache_necessary_lod (Some v) (plot u))).
  { apply (necessary_lod_same_source fuel (plot w) (plot u) p0 v);
      [repeat split; reflexivity|reflexivity|exact Hread]. }
  assert (Hzoomu :
    _calc_zoom_coords (plot u) (_calc_virtual_screen_bbox (plot u))
    = Ret (ib, sr)) by exact Hzoom.
  destruct (compute_cached_image_done fuel WorkerThread None u v _ ib sr
              Hreadu Hzoomu) as (_ & _ & Hrun).
  cbn [run step]. rewrite Hpending. fold u. rewrite Hrun.
  change (lod (plot u)) with (lod (plot w)).
  destruct (v <? lod (plot w)) eqn:Hlt.
  - rewrite assign_lod_decrement by reflexivity. simpl. rewrite Hui. simpl.
    eexists. split; [reflexivity|]. simpl.
    repeat split; trivial.
    unfold submissions. simpl.
    rewrite !List.filter_app. simpl. now rewrite !app_nil_r.
  - simpl. rewrite Hui. simpl.
    eexists. split; [reflexivity|]. simpl.
    repeat split; trivial.
    unfold submissions. simpl.
    rewrite !List.filter_app. simpl. now rewrite !app_nil_r.
Qed.

(** One turn from an invalid cache, an empty UI queue and an empty
    serializer queue. *)
Lemma refine_round_spec (fuel : nat) (w : world) (v : Z) (p0 : Plot)
  (ib : option index_bounds) (sr : option (list Q)) :
  necessary_lod fuel (plot w) = Ret (v, p0) ->
  _calc_zoom_coords (plot w) (_calc_virtual_screen_bbox (plot w))
  = Ret (ib, sr) ->
  _image_cache_valid (plot w) = false ->
  ui_loop w = [] ->
  pending w = [] ->
  exists w' : world,
    run fuel refine_round w = Done w' /\
    same_view (plot w) (plot w') /\
    _traits_cache_necessary_lod (plot w') = Some v /\
    submissions w' = Datatypes.S (submissions w) /\
    pending w' = [] /\
    ui_loop w' = [] /\
    _cached_image (plot w')
    = Some (_kiva_array_from_numpy_array
              (get_data_bounded (value (plot w)) ib (lod (plot w)))) /\
    lod (plot w') = (if v <? lod (plot w) then lod (plot w) - 1
                     else lod (plot w)) /\
    _image_cache_valid (plot w') = negb (v <? lod (plot w)).
Proof.
  intros Hread Hzoom Hvalid Hui Hpending. unfold pending in Hpending.
  assert (Hrender :
    same_view (plot w) (plot (_render w)) /\
    _traits_cache_necessary_lod (plot w)
    = _traits_cache_necessary_lod (plot (_render w)) /\
    lod (plot (_render w)) = lod (plot w) /\
    ui_loop (_render w) = [] /\
    pending (_render w) = [ComputeCachedImage]).
  { unfold _render, pending. rewrite Hvalid. simpl.
    destruct (_cached_image (plot w)); simpl; rewrite Hpending;
      repeat split; trivial. }
  destruct Hrender as (Hview1 & Hcache1 & Hlod1 & Hui1 & Hpending1).
  assert (Hsub1 : submissions (_render w) = Datatypes.S (submissions w)).
  { destruct (render_submissions w) as [-> _]. rewrite Hvalid. lia. }
  pose proof (necessary_lod_same_source fuel _ _ _ _ Hview1 Hcache1 Hread)
    as Hread1.
  pose proof (zoom_coords_kept _ _ _ _ Hview1 Hzoom) as Hzoom1.
  destruct (worker_then_handlers fuel (_render w) v _ ib sr [] Hread1 Hzoom1
              Hui1 Hpending1)
    as (w' & Hrun & Hview & Hcache & Hsub & Hpen & Hui' & Himg & Hlod & Hval).
  exists w'. unfold refine_round.
  change (CallRender :: ?cs) with ([CallRender] ++ cs).
  rewrite (run_app fuel [CallRender] _ w (_render w) eq_refl).
  split; [exact Hrun|]. split; [exact (same_view_trans _ _ _ Hview1 Hview)|].
  rewrite Hsub, Hsub1, Himg, Hlod, Hval, Hlod1.
  destruct Hview1 as (<- & _). repeat split; trivial.
Qed.

Lemma refine_rounds_snoc (k : nat) :
  refine_rounds (Datatypes.S k) = refine_rounds k ++ refine_round.
Proof.
  induction k as [|k IH]; [reflexivity|].
  change (refine_rounds (Datatypes.S (Datatypes.S k)))
    with (refine_round ++ refine_rounds (Datatypes.S k)).
  rewrite IH at 1. now rewrite app_assoc.
Qed.

(** While [lod] is above the value of the property, each turn lowers it by
    one and leaves the cache invalid again. *)
Lemma refine_rounds_partial (fuel : nat) (v : Z) (ib : option index_bounds)
  (sr : option (list Q)) (j : nat) (w : world) (p0 : Plot) :
  necessary_lod fuel (plot w) = Ret (v, p0) ->
  _calc_zoom_coords (plot w) (_calc_virtual_screen_bbox (plot w))
  = Ret (ib, sr) ->
  _image_cache_valid (plot w) = false ->
  ui_loop w = [] ->
  pending w = [] ->
  v <= lod (plot w) - Z.of_nat j ->
  exists (w' : world) (p' : Plot),
    run fuel (refine_rounds j) w = Done w' /\
    same_view (plot w) (plot w') /\
    necessary_lod fuel (plot w') = Ret (v, p') /\
    lod (plot w') = lod (plot w) - Z.of_nat j /\
    _image_cache_valid (plot w') = false /\
    ui_loop w' = [] /\
    pending w' = [] /\
    submissions w' = (submissions w + j)%nat.
Proof.
  revert w p0. induction j as [|j IH];
    intros w p0 Hread Hzoom Hvalid Hui Hpending Hle.
  - exists w, p0. simpl. repeat split; trivial; lia.
  - destruct (refine_round_spec fuel w v p0 ib sr Hread Hzoom Hvalid Hui
                Hpending)
      as (w1 & Hrun1 & Hview1 & Hcache1 & Hsub1 & Hpen1 & Hui1 & _ & Hlod1
          & Hvalid1).
    destruct (Z.ltb_spec v (lod (plot w))) as [Hlt|Hge]; [|lia].
    simpl in Hvalid1.
    destruct (IH w1 _ (necessary_lod_cached fuel _ _ Hcache1)
                (zoom_coords_kept _ _ _ _ Hview1 Hzoom) Hvalid1 Hui1 Hpen1
                ltac:(lia))
      as (w' & p' & Hrun & Hview & Hread' & Hlod & Hvalid' & Hui' & Hpen'
          & Hsub).
    exists w', p'. cbn [refine_rounds].
    rewrite (run_app fuel _ _ w w1 Hrun1).
    split; [exact Hrun|]. split; [exact (same_view_trans _ _ _ Hview1 Hview)|].
    repeat split; trivial; lia.
Qed.

(** The turn at the value of the property ends the refinement. *)
Lemma refine_rounds_settle (fuel : nat) (w : world) (v : Z) (p0 : Plot)
  (ib : option index_bounds) (sr : option (list Q)) :
  necessary_lod fuel (plot w) = Ret (v, p0) ->
  _calc_zoom_coords (plot w) (_calc_virtual_screen_bbox (plot w))
  = Ret (ib, sr) ->
  _image_cache_valid (plot w) = false ->
  ui_loop w = [] ->
  pending w = [] ->
  v <= lod (plot w) ->
  exists w' : world,
    run fuel (refine_rounds (Datatypes.S (Z.to_nat (lod (plot w) - v)))) w
    = Done w' /\
    lod (plot w') = v /\
    _image_cache_valid (plot w') = true /\
    ui_loop w' = [] /\
    pending w' = [] /\
    submissions w'
    = (submissions w + Datatypes.S (Z.to_nat (lod (plot w) - v)))%nat /\
    _cached_image (plot w')
    = Some (_kiva_array_from_numpy_array
              (get_data_bounded (value (plot w)) ib v)).
Proof.
  intros Hread Hzoom Hvalid Hui Hpending Hle.
  destruct (refine_rounds_partial fuel v ib sr
              (Z.to_nat (lod (plot w) - v)) w p0 Hread Hzoom Hvalid Hui
              Hpending ltac:(lia))
    as (w1 & p1 & Hrun1 & Hview1 & Hread1 & Hlod1 & Hvalid1 & Hui1 & Hpen1
        & Hsub1).
  destruct (refine_round_spec fuel w1 v p1 ib sr Hread1
              (zoom_coords_kept _ _ _ _ Hview1 Hzoom) Hvalid1 Hui1 Hpen1)
    as (w' & Hrun & _ & _ & Hsub & Hpen & Hui' & Himg & Hlod & Hvalid').
  assert (Hlodv : lod (plot w1) = v) by lia.
  rewrite Hlodv, Z.ltb_irrefl in Hlod, Hvalid'. rewrite Hlodv in Himg.
  exists w'. rewrite refine_rounds_snoc, (run_app fuel _ _ w w1 Hrun1).
  destruct Hview1 as (Hvalue & _). rewrite Hvalue.
  repeat split; trivial. lia.
Qed.

(** X7: From an invalid cache with nothing queued on the UI loop or in the
    serializer, and [lod] at or above the value [v] of the property
    [necessary_lod], [lod - v + 1] turns of render, job and handlers complete
    the refinement: while [lod] is above [v] each turn ends with the cache
    invalid again, and the last turn leaves [lod = v], the cache valid, both
    queues empty and the image of LOD [v] cached; one job was submitted per
    turn. *)
Theorem refinement_reaches_necessary_lod (fuel : nat) (w : world) (v : Z)
  (p0 : Plot) (ib : option index_bounds) (sr : option (list Q)) :
  necessary_lod fuel (plot w) = Ret (v, p0) ->
  _calc_zoom_coords (plot w) (_calc_virtual_screen_bbox (plot w))
  = Ret (ib, sr) ->
  _image_cache_valid (plot w) = false ->
  ui_loop w = [] ->
  pending w = [] ->
  v <= lod (plot w) ->
  let turns := Z.to_nat (lod (plot w) - v) in
  (forall j : nat, (j <= turns)%nat ->
     exists w' : world,
       run fuel (refine_rounds j) w = Done w' /\
       lod (plot w') = lod (plot w) - Z.of_nat j /\
       _image_cache_valid (plot w') = false) /\
  exists w' : world,
    run fuel (refine_rounds (Datatypes.S turns)) w = Done w' /\
    lod (plot w') = v /\
    _image_cache_valid (plot w') = true /\
    ui_loop w' = [] /\
    pending w' = [] /\
    submissions w' = (submissions w + Datatypes.S turns)%nat /\
    _cached_image (plot w')
    = Some (_kiva_array_from_numpy_array
              (get_data_bounded (value (plot w)) ib v)).
Proof.
  intros Hread Hzoom Hvalid Hui Hpending Hle turns. split.
  - intros j Hj.
    destruct (refine_rounds_partial fuel v ib sr j w p0 Hread Hzoom Hvalid
                Hui Hpending ltac:(lia))
      as (w' & p' & Hrun & _ & _ & Hlod & Hvalid' & _).
    eauto.
  - exact (refine_rounds_settle fuel w v p0 ib sr Hread Hzoom Hvalid Hui
             Hpending Hle).
Qed.

(** X8: A change of the draw bounds handled on the UI thread with nothing
    queued on the UI loop, followed by [maximum_lod - v + 1] turns, ends at
    the value [v] of the property [necessary_lod] when that is not above
    [maximum_lod], with the image of LOD [v] cached and the cache valid,
    whatever [lod], the cache and the serializer's queue were before. *)
Theorem viewport_change_then_refinement (fuel : nat) (w : world) (v : Z)
  (p0 : Plot) (ib : option index_bounds) (sr : option (list Q)) :
  necessary_lod fuel (plot w) = Ret (v, p0) ->
  _calc_zoom_coords (plot w) (_calc_virtual_screen_bbox (plot w))
  = Ret (ib, sr) ->
  ui_loop w = [] ->
  v <= maximum_lod (plot w) ->
  let turns := Datatypes.S (Z.to_nat (maximum_lod (plot w) - v)) in
  exists w' : world,
    run fuel (refine_rounds turns) (handle_draw_bounds_change UIThread w)
    = Done w' /\
    lod (plot w') = v /\
    _image_cache_valid (plot w') = true /\
    ui_loop w' = [] /\
    pending w' = [] /\
    submissions w' = (submissions w + turns)%nat /\
    _cached_image (plot w')
    = Some (_kiva_array_from_numpy_array
              (get_data_bounded (value (plot w)) ib v)).
Proof.
  intros Hread Hzoom Hui Hle turns.
  set (w0 := handle_draw_bounds_change UIThread w).
  assert (Hw0 :
    same_view (plot w) (plot w0) /\
    _traits_cache_necessary_lod (plot w)
    = _traits_cache_necessary_lod (plot w0) /\
    lod (plot w0) = maximum_lod (plot w) /\
    _image_cache_valid (plot w0) = false /\ ui_loop w0 = ui_loop w /\
    pending w0 = [] /\
    submissions w0 = submissions w).
  { subst w0. unfold handle_draw_bounds_change, assign_lod, pending.
    destruct (Z.eqb_spec (lod (plot w)) (maximum_lod (plot w))) as [Heq|Hne];
      simpl; repeat split; trivial; unfold submissions; simpl;
      rewrite ?List.filter_app; simpl; now rewrite ?app_nil_r. }
  destruct Hw0 as (Hview & Hcache & Hlod0 & Hvalid0 & Hui0 & Hpen0 & Hsub0).
  pose proof (necessary_lod_same_source fuel _ _ _ _ Hview Hcache Hread)
    as Hread0.
  destruct (refine_rounds_settle fuel w0 v _ ib sr Hread0
              (zoom_coords_kept _ _ _ _ Hview Hzoom) Hvalid0
              ltac:(congruence) Hpen0 ltac:(lia))
    as (w' & Hrun & Hlod & Hvalid & Hui' & Hpen & Hsub & Himg).
  rewrite Hlod0, Hsub0 in *. destruct Hview as (Hvalue & _).
  rewrite <- Hvalue in Himg. exists w'. repeat split; trivial.
Qed.

(** X9: Once the cache is valid with [lod] at or below the value of the
    property [necessary_lod] and no [lod] handler is queued, the plot stays
    settled: whatever renders, jobs run by the worker and UI handlers follow
    (without an invalidation from outside), the cache stays valid, [lod]
    stays put and nothing more is submitted to the serializer. *)
Theorem settled_plot_stays_settled (fuel : nat) (cs : list call) (w : world)
  (v : Z) (p0 : Plot) (ib : option index_bounds) (sr : option (list Q)) :
  necessary_lod fuel (plot w) = Ret (v, p0) ->
  _calc_zoom_coords (plot w) (_calc_virtual_screen_bbox (plot w))
  = Ret (ib, sr) ->
  lod (plot w) <= v ->
  _image_cache_valid (plot w) = true ->
  HandleLodLevelChange ∉ ui_loop w ->
  CallInvalidateDraw ∉ cs ->
  exists w' : world,
    run fuel cs w = Done w' /\
    _image_cache_valid (plot w') = true /\
    lod (plot w') = lod (plot w) /\
    submissions w' = submissions w.
Proof.
  revert w p0. induction cs as [|c cs IH];
    intros w p0 Hread Hzoom Hle Hvalid Hui Hcs.
  - exists w. repeat split; trivial.
  - apply not_elem_of_cons in Hcs as [Hc Hcs].
    assert (Hstep : exists (w1 : world) (p1 : Plot),
      step fuel c w = Done w1 /\
      same_view (plot w) (plot w1) /\
      necessary_lod fuel (plot w1) = Ret (v, p1) /\
      _image_cache_valid (plot w1) = true /\
      lod (plot w1) = lod (plot w) /\
      submissions w1 = submissions w /\
      HandleLodLevelChange ∉ ui_loop w1).
    { destruct c; [| congruence | |].
      - exists (_render w).
        destruct (render_submissions w) as [Hsub _].
        rewrite Hsub, Hvalid.
        assert (Hsame :
          same_view (plot w) (plot (_render w)) /\
          _traits_cache_necessary_lod (plot w)
          = _traits_cache_necessary_lod (plot (_render w)) /\
          _image_cache_valid (plot (_render w)) = true /\
          lod (plot (_render w)) = lod (plot w) /\
          ui_loop (_render w) = ui_loop w).
        { unfold _render. rewrite Hvalid. simpl.
          destruct (_cached_image (plot w)); repeat split; trivial. }
        destruct Hsame as (Hview & Hcache & Hvalid1 & Hlod1 & Hui1).
        eexists. split; [reflexivity|]. split; [exact Hview|].
        split;
          [exact (necessary_lod_same_source fuel _ _ _ _ Hview Hcache Hread)|].
        rewrite Hui1. repeat split; trivial; lia.
      - cbn [step].
        destruct (_pending_operations (_serializer (plot w)))
          as [|[] rest] eqn:Hpending.
        + exists w, p0. repeat split; trivial.
        + set (u := with_plot
                      (set__serializer {| _pending_operations := rest |}) w).
          assert (Hreadu :
            necessary_lod fuel (plot u)
            = Ret (v, set__traits_cache_necessary_lod (Some v) (plot u))).
          { apply (necessary_lod_same_source fuel (plot w) (plot u) p0 v);
              [repeat split; reflexivity|reflexivity|exact Hread]. }
          destruct (compute_cached_image_done fuel WorkerThread None u v _
                      ib sr Hreadu Hzoom) as (_ & _ & Hrun).
          change (lod (plot u)) with (lod (plot w)) in Hrun.
          destruct (Z.ltb_spec v (lod (plot w))) as [Hlt|_]; [lia|].
          eexists. eexists. split; [exact Hrun|]. simpl.
          split; [repeat split; reflexivity|].
          split; [apply necessary_lod_cached; reflexivity|].
          repeat split; trivial.
          rewrite not_elem_of_app. split; [exact Hui|].
          rewrite list_elem_of_singleton. discriminate.
      - simpl. destruct (ui_loop w) as [|h rest] eqn:Hloop.
        + exists w, p0. rewrite Hloop. repeat split; trivial.
        + apply not_elem_of_cons in Hui as [Hh Hrest].
          destruct h; [congruence|].
          eexists. eexists. split; [reflexivity|]. simpl.
          split; [repeat split; reflexivity|].
          split;
            [apply (necessary_lod_same_source fuel (plot w) _ p0 v);
             [repeat split; reflexivity|reflexivity|exact Hread]|].
          repeat split; trivial.
          unfold handle_new_cached, request_redraw.
          now rewrite submissions_emit, Nat.add_0_r. }
    destruct Hstep as (w1 & p1 & Hstep & Hview & Hread1 & Hvalid1 & Hlod1
                       & Hsub1 & Hui1).
    destruct (IH w1 p1 Hread1 (zoom_coords_kept _ _ _ _ Hview Hzoom)
                ltac:(lia) Hvalid1 Hui1 Hcs)
      as (w' & Hrun & Hvalid' & Hlod' & Hsub').
    exists w'. cbn [run]. rewrite Hstep.
    repeat split; trivial; congruence.
Qed.

End Refinement.

(** ** The cache at the edges *)

Section CacheEdges.

Context {ndarray kiva_array : Type} `{!ImageBackend ndarray kiva_array}.

Abbreviation Plot := (LODImagePlot ndarray kiva_array).
Abbreviation world := (World ndarray kiva_array).

Lemma calc_zoom_coords_guard (self : Plot) (image_rect : rect) :
  length (draw_bounds self) = 4%nat ->
  zero_in (drop 2 (draw_bounds self)) || zero_in (bounds self) = true ->
  _calc_zoom_coords self image_rect = Ret (None, None).
Proof.
  unfold _calc_zoom_coords.
  destruct (draw_bounds self) as [|x [|y [|wd [|h [|]]]]]; try discriminate.
  intros _ Hguard. simpl drop in Hguard. now rewrite Hguard.
Qed.

Lemma calc_zoom_coords_unset (self : Plot) (image_rect : rect) :
  length (draw_bounds self) <> 4%nat ->
  _calc_zoom_coords self image_rect = Raise ValueError.
Proof.
  unfold _calc_zoom_coords.
  destruct (draw_bounds self) as [|x [|y [|wd [|h [|]]]]]; simpl;
    try reflexivity. lia.
Qed.

(** X10: With a zero width or height of the draw bounds (or a zero among
    [bounds]) [_calc_zoom_coords] returns no index bounds and no rectangle,
    and a cache computation caches the image of the default data slice with
    no destination rectangle.  If no value of [necessary_lod] is cached, the
    computation then fails with [TypeError], leaving the cache marked valid,
    so that the next [_render] submits nothing and draws that image with
    [None] as rectangle.  If a value is cached, the computation completes,
    lowering [lod] by one when it is above the cached value.  With
    [draw_bounds] not of four items (as before the first draw) it fails with
    [ValueError] and leaves the plot untouched. *)
Theorem compute_cached_image_degenerate (fuel : nat) (th : thread)
  (mapper : option (ndarray -> ndarray)) (w : world) :
  (length (draw_bounds (plot w)) = 4%nat ->
   zero_in (drop 2 (draw_bounds (plot w))) || zero_in (bounds (plot w))
   = true ->
   _traits_cache_necessary_lod (plot w) = None ->
   exists w' : world,
     _compute_cached_image fuel th mapper w = Raised TypeError w' /\
     _cached_image (plot w')
     = Some (_kiva_array_from_numpy_array
               (_get_data_slice (plot w) None mapper)) /\
     _cached_dest_rect (plot w') = None /\
     _image_cache_valid (plot w') = true /\
     lod (plot w') = lod (plot w) /\
     submissions (_render w') = submissions w' /\
     last (trace (_render w'))
     = Some (RenderImageInRect
               (_kiva_array_from_numpy_array
                  (_get_data_slice (plot w) None mapper)) None)) /\
  (forall v : Z,
   length (draw_bounds (plot w)) = 4%nat ->
   zero_in (drop 2 (draw_bounds (plot w))) || zero_in (bounds (plot w))
   = true ->
   _traits_cache_necessary_lod (plot w) = Some v ->
   exists w' : world,
     _compute_cached_image fuel th mapper w = Done w' /\
     _cached_image (plot w')
     = Some (_kiva_array_from_numpy_array
               (_get_data_slice (plot w) None mapper)) /\
     _cached_dest_rect (plot w') = None /\
     lod (plot w') = (if v <? lod (plot w) then lod (plot w) - 1
                      else lod (plot w))) /\
  (length (draw_bounds (plot w)) <> 4%nat ->
   _compute_cached_image fuel th mapper w = Raised ValueError w).
Proof.
  split; [|split].
  - intros Hlen Hguard Hnone. unfold _compute_cached_image.
    rewrite (calc_zoom_coords_guard _ _ Hlen Hguard).
    match goal with
    | |- context [necessary_lod fuel (plot ?v)] => set (filled := v)
    end.
    assert (Hraise : necessary_lod fuel (plot filled) = Raise TypeError).
    { unfold necessary_lod.
      replace (_traits_cache_necessary_lod (plot filled)) with (@None Z)
        by (subst filled; destruct th; symmetry; exact Hnone).
      unfold _get_necessary_lod.
      rewrite (calc_zoom_coords_guard (plot filled)); [reflexivity| |];
        subst filled; destruct th; assumption. }
    rewrite Hraise. exists filled. split; [reflexivity|].
    assert (Hfields :
      _cached_image (plot filled)
      = Some (_kiva_array_from_numpy_array
                (_get_data_slice (plot w) None mapper)) /\
      _cached_dest_rect (plot filled) = None /\
      _image_cache_valid (plot filled) = true /\
      lod (plot filled) = lod (plot w))
      by (subst filled; destruct th; repeat split; reflexivity).
    destruct Hfields as (Himg & Hrect & Hvalid & Hlod).
    repeat split; trivial.
    + destruct (render_submissions filled) as [-> _]. rewrite Hvalid. lia.
    + unfold _render. rewrite Hvalid. simpl. rewrite Himg, Hrect.
      simpl. now rewrite last_snoc.
  - intros v Hlen Hguard Hsome.
    destruct (compute_cached_image_done fuel th mapper w v (plot w) None None
                (necessary_lod_cached fuel _ _ Hsome)
                (calc_zoom_coords_guard _ _ Hlen Hguard))
      as (_ & _ & Hrun).
    eexists. split; [exact Hrun|].
    rewrite assign_lod_decrement by (destruct th; reflexivity).
    destruct th, (v <? lod (plot w)); simpl; repeat split; trivial.
  - intros Hlen. unfold _compute_cached_image.
    now rewrite (calc_zoom_coords_unset _ _ Hlen).
Qed.

(** X12: Handling a change of draw bounds twice in a row is the same as handling
    it once, up to the second call of the superclass's [invalidate_draw]. *)
Theorem draw_bounds_change_idempotent (th : thread) (w : world) :
  let once := handle_draw_bounds_change th w in
  let twice := handle_draw_bounds_change th once in
  plot twice = plot once /\
  ui_loop twice = ui_loop once /\
  trace twice = trace once ++ [SuperInvalidateDraw].
Proof.
  unfold handle_draw_bounds_change, assign_lod.
  destruct (Z.eqb_spec (lod (plot w)) (maximum_lod (plot w))) as [Heq|Hne].
  - simpl. rewrite Heq, Z.eqb_refl. simpl. now repeat split.
  - destruct th; simpl; rewrite Z.eqb_refl; simpl; now repeat split.
Qed.

(** X18: At the point where [_draw_image] calls the superclass it has
    stored the new bounds in [draw_bounds] and their last two items in
    [draw_size].  If the bounds are the ones stored before, [lod], the
    validity of the cache and the serializer's queue are as they were; if
    they differ, [lod] is [maximum_lod], the cache is invalid and the queue is
    empty.  The cached value of [necessary_lod] is dropped exactly when the
    size differs from the stored one: a draw that moves the bounds without
    resizing them resets [lod] and keeps the cached value. *)
Theorem draw_image_updates_bounds (th : thread) (new_bounds : list Q)
  (w : world) :
  let w' := _draw_image th new_bounds w in
  draw_bounds (plot w') = new_bounds /\
  draw_size (plot w') = drop 2 new_bounds /\
  (exists mid : list (effect kiva_array),
     trace w' = trace w ++ mid ++ [SuperDrawImage]) /\
  (py_list_eq (draw_bounds (plot w)) new_bounds = true ->
   lod (plot w') = lod (plot w) /\
   _image_cache_valid (plot w') = _image_cache_valid (plot w) /\
   _pending_operations (_serializer (plot w'))
   = _pending_operations (_serializer (plot w)) /\
   ui_loop w' = ui_loop w) /\
  (py_list_eq (draw_bounds (plot w)) new_bounds = false ->
   lod (plot w') = maximum_lod (plot w) /\
   _image_cache_valid (plot w') = false /\
   _pending_operations (_serializer (plot w')) = []) /\
  _traits_cache_necessary_lod (plot w')
  = (if py_list_eq (draw_size (plot w)) (drop 2 new_bounds)
     then _traits_cache_necessary_lod (plot w) else None).
Proof.
  unfold _draw_image, assign_draw_size, assign_draw_bounds,
    handle_draw_bounds_change, assign_lod.
  destruct (py_list_eq (draw_bounds (plot w)) new_bounds); cbn [negb].
  - cbn [with_plot plot set_draw_bounds draw_size].
    destruct (py_list_eq (draw_size (plot w)) (drop 2 new_bounds));
      cbn -[drop py_list_eq];
      (split; [reflexivity|]); (split; [reflexivity|]);
      (split; [now exists []|]);
      (split; [intros _; now repeat split|]);
      (split; [discriminate|reflexivity]).
  - cbn [with_plot plot set_draw_bounds lod maximum_lod].
    destruct (Z.eqb_spec (lod (plot w)) (maximum_lod (plot w))) as [Heq|Hne];
      [|destruct th];
      cbn -[drop py_list_eq];
      destruct (py_list_eq (draw_size (plot w)) (drop 2 new_bounds));
      cbn -[drop py_list_eq];
      (split; [reflexivity|]); (split; [reflexivity|]);
      (split;
       [first [ exists [SuperInvalidateDraw];
                now rewrite <- ?app_assoc
              | exists [SuperInvalidateDraw; SuperInvalidateDraw];
                now rewrite <- ?app_assoc ]|]);
      (split; [discriminate|]);
      (split; [intros _; now repeat split|reflexivity]).
Qed.

End CacheEdges.

(** ** Drawing the cached image

    [_render_image_in_rect] and [_temporary_interp_setting] talk to a kiva
    graphics context.  The context is its list of calls; the kiva image
    carries its interpolation setting, which the Agg branch changes and
    restores.  [with gc:] saves the graphics state on entry and restores it
    on exit, also when the body raises; a [@contextmanager] generator that
    ends without yielding makes the [with] statement raise [RuntimeError]. *)

(** [kiva.quartz.ABCGI.InterpolationQuality], the members used here. *)
Inductive InterpolationQuality : Type :=
| quality_none
| quality_low
| quality_high.

(** Lines 24-26. *)
Definition KIVA_INTERP_QUALITY : gmap string InterpolationQuality :=
  {[ "nearest" := quality_none;
     "bilinear" := quality_low;
     "bicubic" := quality_high ]}.

(** What drawing can raise. *)
Inductive draw_exn : Type :=
| Unpack (e : exn)
| KeyError
| RuntimeError
| DrawError.

Set Implicit Arguments.

Inductive gc_call (kiva_array : Type) : Type :=
| save_state
| restore_state
| clip_to_rect (x y w h : Q)
| set_alpha (alpha : Q)
| translate_ctm (tx ty : Q)
| scale_ctm (sx sy : Q)
| transpose_about_origin
| set_interpolation_quality (q : InterpolationQuality)
| draw_image (img : kiva_array) (image_interpolation : string)
             (screen_rect : list Q).

Arguments save_state {kiva_array}.
Arguments restore_state {kiva_array}.
Arguments clip_to_rect {kiva_array} x y w h.
Arguments set_alpha {kiva_array} alpha.
Arguments translate_ctm {kiva_array} tx ty.
Arguments scale_ctm {kiva_array} sx sy.
Arguments transpose_about_origin {kiva_array}.
Arguments set_interpolation_quality {kiva_array} q.

(** The calls received by the graphics context and the interpolation
    setting of the image being drawn. *)
Record Canvas (kiva_array : Type) : Type := {
  calls : list (gc_call kiva_array);
  image_interpolation : string
}.

Unset Implicit Arguments.

(** What the graphics context offers ([hasattr]) and whether its
    [draw_image] raises. *)
Record Backend : Type := {
  has_set_interpolation_quality : bool;
  has_set_image_interpolation : bool;
  draw_image_raises : bool
}.

(** The attributes of the base classes that the drawing code reads. *)
Record ImagePlotAttrs : Type := {
  x : Q;
  y : Q;
  width : Q;
  height : Q;
  alpha : Q;
  orientation : string;
  interpolation : string
}.

Section Drawing.

Context {ndarray kiva_array : Type}.

Abbreviation Plot := (LODImagePlot ndarray kiva_array).
Abbreviation canvas := (Canvas kiva_array).

(** A statement run on the canvas: the exception raised, if any, and the
    canvas it leaves. *)
Definition drawing : Type := canvas -> option draw_exn * canvas.

Definition gc_do (c : gc_call kiva_array) (cv : canvas) : canvas :=
  {| calls := calls cv ++ [c];
     image_interpolation := image_interpolation cv |}.

(** [kiva_array.set_image_interpolation(s)] *)
Definition set_image_interpolation (s : string) (cv : canvas) : canvas :=
  {| calls := calls cv; image_interpolation := s |}.

(** [gc.draw_image(kiva_array, screen_rect)] *)
Definition gc_draw_image (be : Backend) (img : kiva_array)
  (screen_rect : list Q) : drawing := fun cv =>
  let cv := gc_do (draw_image img (image_interpolation cv) screen_rect) cv in
  (if draw_image_raises be then Some DrawError else None, cv).

(** Lines 218-235. *)
Definition _temporary_interp_setting (be : Backend) (attrs : ImagePlotAttrs)
  (body : drawing) : drawing := fun cv =>
  if has_set_interpolation_quality be then
    match KIVA_INTERP_QUALITY !! interpolation attrs with
    | None => (Some KeyError, cv)
    | Some interp_quality =>
      body (gc_do (set_interpolation_quality interp_quality) cv)
    end
  else if has_set_image_interpolation be then
    let old_interp := image_interpolation cv in
    let cv := set_image_interpolation (interpolation attrs) cv in
    let '(raised, cv) := body cv in
    (raised, set_image_interpolation old_interp cv)
  else (Some RuntimeError, cv).

(** Lines 184-216. *)
Definition _render_image_in_rect (be : Backend) (self : Plot)
  (attrs : ImagePlotAttrs) (kiva_array_ : option kiva_array)
  (screen_rect : option (list Q)) : drawing := fun cv =>
  match kiva_array_ with
  | None => (None, cv)
  | Some img =>
    let scale_x := (if x_axis_is_flipped self then - (1) else 1)%Q in
    let scale_y := (if y_axis_is_flipped self then 1 else - (1))%Q in
    match screen_rect with
    | None => (Some (Unpack TypeError), cv)
    | Some [x_; y_; w; h] =>
      let x_center := (x_ + w / 2)%Q in
      let y_center := (y_ + h / 2)%Q in
      let cv := gc_do save_state cv in
      let cv :=
        gc_do (clip_to_rect (x attrs) (y attrs) (width attrs) (height attrs))
          cv in
      let cv := gc_do (set_alpha (alpha attrs)) cv in
      let cv :=
        if String.eqb (orientation attrs) "h"
        then gc_do (translate_ctm x_center y_center) cv
        else gc_do (translate_ctm y_center x_center) cv in
      let cv := gc_do (scale_ctm scale_x scale_y) cv in
      let cv :=
        if String.eqb (orientation attrs) "v"
        then gc_do transpose_about_origin cv
        else cv in
      let cv := gc_do (translate_ctm (- x_center) (- y_center)) cv in
      let '(raised, cv) :=
        _temporary_interp_setting be attrs
          (gc_draw_image be img [x_; y_; w; h]) cv in
      (raised, gc_do restore_state cv)
    | Some _ => (Some (Unpack ValueError), cv)
    end
  end.

End Drawing.

(** Where a point given in user coordinates lands under the coordinate
    transformations among the calls, read in the usual way of a current
    transformation matrix: each call applies before the ones issued earlier.
    Calls that are no translation or scaling do not move points. *)
Definition user_to_device {kiva_array : Type} (ops : list (gc_call kiva_array))
  (p : Q * Q) : Q * Q :=
  fold_right
    (fun c p =>
       match c with
       | translate_ctm tx ty => (p.1 + tx, p.2 + ty)%Q
       | scale_ctm sx sy => (sx * p.1, sy * p.2)%Q
       | _ => p
       end) p ops.

(** The interpolation settings under which [draw_image] was called. *)
Definition drawn_with {kiva_array : Type} (cs : list (gc_call kiva_array))
  : list string :=
  omap (fun c => match c with
                   | draw_image _ s _ => Some s
                   | _ => None
                   end) cs.

Section DrawingFacts.

Context {ndarray kiva_array : Type}.

Abbreviation Plot := (LODImagePlot ndarray kiva_array).
Abbreviation canvas := (Canvas kiva_array).

Lemma snoc_base {A : Type} (z : A) : [z] = [] ++ [z].
Proof. reflexivity. Qed.

Lemma snoc_step {A : Type} (a z : A) (l m : list A) :
  l = m ++ [z] -> a :: l = (a :: m) ++ [z].
Proof. now intros ->. Qed.

(** Reads a goal [pre ++ [a; c1; ...; cn; z] = pre ++ a :: ?mid ++ [z]]. *)
Ltac bracketed :=
  apply (f_equal (app _)); apply (f_equal (cons _));
  repeat first [exact (snoc_base _) | apply snoc_step].

Ltac drawing_cases be attrs :=
  destruct (has_set_interpolation_quality be);
  [destruct (KIVA_INTERP_QUALITY !! interpolation attrs)|
   destruct (has_set_image_interpolation be)];
  destruct (draw_image_raises be);
  destruct (String.eqb (orientation attrs) "h");
  destruct (String.eqb (orientation attrs) "v");
  cbn [fst snd calls image_interpolation gc_do set_image_interpolation].

(** X13: Whatever happens while drawing, the graphics state saved on entry is
    restored by the last call, no other save or restore is issued, and the
    image has its own interpolation setting back; when there is no image or
    the rectangle cannot be unpacked, the graphics context is not called at
    all. *)
Theorem render_image_in_rect_restores (be : Backend) (self : Plot)
  (attrs : ImagePlotAttrs) (img : option kiva_array)
  (screen_rect : option (list Q)) (cv : canvas) :
  let result := _render_image_in_rect be self attrs img screen_rect cv in
  image_interpolation result.2 = image_interpolation cv /\
  match img, screen_rect with
  | None, _ => result = (None, cv)
  | Some _, None => result = (Some (Unpack TypeError), cv)
  | Some _, Some rect =>
    if (length rect =? 4)%nat then
      exists mid : list (gc_call kiva_array),
        calls result.2 = calls cv ++ save_state :: mid ++ [restore_state] /\
        (save_state ∉ mid) /\ (restore_state ∉ mid)
    else result = (Some (Unpack ValueError), cv)
  end.
Proof.
  unfold _render_image_in_rect.
  destruct img as [img|]; [|now split].
  destruct screen_rect as [[|x_ [|y_ [|w [|h [|]]]]]|]; try now split.
  unfold _temporary_interp_setting, gc_draw_image.
  drawing_cases be attrs; (split; [reflexivity|]);
    rewrite <- ?app_assoc; cbn [app Nat.eqb length];
    eexists; (split; [bracketed|]);
    rewrite ?not_elem_of_cons; repeat split; try discriminate;
    apply not_elem_of_nil.
Qed.

(** X14: What gets drawn and what is raised once the image and its rectangle are
    there.  A context with [set_interpolation_quality] draws the image with
    its own interpolation setting, after the quality looked up for the plot's
    [interpolation]; a name outside [KIVA_INTERP_QUALITY] raises [KeyError]
    and nothing is drawn.  Otherwise a context with
    [set_image_interpolation] draws the image with the plot's
    [interpolation].  A context with neither method draws nothing and the
    call raises [RuntimeError].  A failure of [draw_image] itself comes
    through. *)
Theorem render_image_in_rect_draws (be : Backend) (self : Plot)
  (attrs : ImagePlotAttrs) (img : kiva_array) (x_ y_ w h : Q) (cv : canvas) :
  let result :=
    _render_image_in_rect be self attrs (Some img) (Some [x_; y_; w; h]) cv in
  let draw_result :=
    if draw_image_raises be then Some DrawError else None in
  exists new : list (gc_call kiva_array),
    calls result.2 = calls cv ++ new /\
    (drawn_with new, result.1)
    = if has_set_interpolation_quality be then
        match KIVA_INTERP_QUALITY !! interpolation attrs with
        | Some q => ([image_interpolation cv], draw_result)
        | None => ([], Some KeyError)
        end
      else if has_set_image_interpolation be then
        ([interpolation attrs], draw_result)
      else ([], Some RuntimeError).
Proof.
  unfold _render_image_in_rect, _temporary_interp_setting, gc_draw_image.
  drawing_cases be attrs; rewrite <- ?app_assoc; cbn [app];
    eexists; (split; [reflexivity|]); reflexivity.
Qed.

(** X15: In horizontal orientation, everything between saving and restoring the
    graphics state is drawn under the reflection of the destination
    rectangle onto itself: the point at offset [(a, b)] from the rectangle's
    origin lands at offset [(a, h - b)], with [a] replaced by [w - a] when
    the x axis is flipped and [h - b] by [b] when the y axis is flipped. *)
Theorem render_image_in_rect_reflects (be : Backend) (self : Plot)
  (attrs : ImagePlotAttrs) (img : kiva_array) (x_ y_ w h : Q) (cv : canvas) :
  orientation attrs = "h" ->
  let result :=
    _render_image_in_rect be self attrs (Some img) (Some [x_; y_; w; h]) cv in
  exists mid : list (gc_call kiva_array),
    calls result.2 = calls cv ++ save_state :: mid ++ [restore_state] /\
    forall a b : Q,
      let p := user_to_device mid (x_ + a, y_ + b)%Q in
      (p.1 == x_ + (if x_axis_is_flipped self then w - a else a))%Q /\
      (p.2 == y_ + (if y_axis_is_flipped self then b else h - b))%Q.
Proof.
  intros Horient.
  unfold _render_image_in_rect, _temporary_interp_setting, gc_draw_image.
  rewrite Horient. cbn [String.eqb Ascii.eqb Bool.eqb].
  destruct (has_set_interpolation_quality be);
    [destruct (KIVA_INTERP_QUALITY !! interpolation attrs)|
     destruct (has_set_image_interpolation be)];
    destruct (draw_image_raises be);
    cbn [fst snd calls image_interpolation gc_do set_image_interpolation];
    rewrite <- ?app_assoc; cbn [app];
    eexists; (split; [bracketed|]);
    intros a b; unfold user_to_device; cbn [fold_right fst snd];
    destruct (x_axis_is_flipped self), (y_axis_is_flipped self);
    split; field.
Qed.

End DrawingFacts.

(** ** How the imports can end *)

(** X16: Importing [lod_image_plot] exits only through the encore guard, with
    its message, after the unconditional imports went through; any other
    failure comes out as the exception of the first failing import, in
    particular an exception of an encore import that is no [ImportError];
    the module is loaded only when every import succeeds. *)
Theorem lod_image_plot_import_outcomes (py : interpreter) :
  let required := import_modules py lod_image_plot.required_imports in
  let encore := import_modules py lod_image_plot.encore_imports in
  let package := import_modules py lod_image_plot.package_imports in
  match lod_image_plot.import_module py with
  | Loaded _ => required = None /\ encore = None /\ package = None
  | SystemExit msg =>
    msg = lod_image_plot.exit_message /\
    required = None /\ encore = Some ImportError
  | Propagated e =>
    required = Some e \/
    (required = None /\ encore = Some e /\ e <> ImportError) \/
    (required = None /\ encore = None /\ package = Some e)
  end.
Proof.
  unfold lod_image_plot.import_module.
  destruct (import_modules py lod_image_plot.required_imports) as [e|];
    [now left|].
  destruct (import_modules py lod_image_plot.encore_imports) as [[|]|].
  - now repeat split.
  - right. left. now repeat split.
  - destruct (import_modules py lod_image_plot.package_imports) as [e|].
    + right. right. now repeat split.
    + now repeat split.
Qed.

(** ** More sample objects *)

Module Scenes.

(** The fitted pyramid right after an invalidation. *)
Definition invalidated : World (list Z) (list Z) :=
  invalidate_draw (Sample.start Sample.fitted).

(** The fitted pyramid refined down to its necessary LOD. *)
Definition settled : World (list Z) (list Z) :=
  Sample.start (set_lod 3 Sample.fitted).

(** The settled pyramid with a job of an earlier render still pending. *)
Definition queued : World (list Z) (list Z) :=
  submit ComputeCachedImage settled.

(** The attributes of a horizontal plot with bilinear interpolation. *)
Definition horizontal : ImagePlotAttrs :=
  {| x := 0; y := 0; width := 100; height := 100; alpha := 1;
     orientation := "h"; interpolation := "bilinear" |}.

(** An Agg-like context. *)
Definition agg : Backend :=
  {| has_set_interpolation_quality := false;
     has_set_image_interpolation := true;
     draw_image_raises := false |}.

(** The fitted pyramid with a draw area of zero width. *)
Definition collapsed : World (list Z) (list Z) :=
  Sample.start
    {| value := Sample.pyramid;
       draw_bounds := [0; 0; 0; 100]%Q;
       draw_size := [0; 100]%Q;
       lod := 9;
       maximum_lod := 9;
       _serializer := {| _pending_operations := [] |};
       _traits_cache_necessary_lod := None;
       bounds := [100; 100]%Q;
       x_axis_is_flipped := false;
       y_axis_is_flipped := false;
       _image_cache_valid := false;
       _cached_image := None;
       _cached_dest_rect := None;
       virtual_screen_bbox := (0, 0, 100, 100)%Q |}.

(** The same after a value of [necessary_lod] was cached for that draw
    size. *)
Definition collapsed_read : World (list Z) (list Z) :=
  with_plot (set__traits_cache_necessary_lod (Some 3)) collapsed.

Definition blank : Canvas (list Z) :=
  {| calls := []; image_interpolation := "nearest" |}.

End Scenes.

(** ** The further properties on the sample objects *)

Lemma calc_zoom_coords_one_sided_bounds_panned_away :
  Some [0; 0; 10; 10]%Q = Some (draw_bounds Sample.panned_away) /\
  0 <= 0 /\ -81 <= get_width (value Sample.panned_away) - 1 /\
  0 <= 0 /\ 9 <= get_height (value Sample.panned_away) - 1.
Proof.
  apply (calc_zoom_coords_one_sided_bounds Sample.panned_away
           (_calc_virtual_screen_bbox Sample.panned_away) 0 (-81) 0 9).
  vm_compute; reflexivity.
Defined.

Lemma calc_zoom_coords_ordered_fitted :
  exists col_min col_max row_min row_max : Z,
    _calc_zoom_coords Sample.fitted (0, 0, 100, 100)%Q
    = Ret (Some (col_min, col_max, row_min, row_max),
           Some (draw_bounds Sample.fitted)) /\
    0 <= col_min <= col_max /\ col_max <= get_width (value Sample.fitted) - 1 /\
    0 <= row_min <= row_max /\ row_max <= get_height (value Sample.fitted) - 1.
Proof.
  apply (calc_zoom_coords_ordered_when_overlapping Sample.fitted
           0 0 100 100 0 0 100 100)%Q;
    try reflexivity; try (vm_compute; discriminate); simpl; lia.
Defined.

Lemma calc_zoom_coords_full_image_fitted :
  _calc_zoom_coords Sample.fitted (0, 0, 100, 100)%Q
  = Ret (Some (0, get_width (value Sample.fitted) - 1,
               0, get_height (value Sample.fitted) - 1),
         Some (draw_bounds Sample.fitted)).
Proof.
  apply (calc_zoom_coords_full_image Sample.fitted 0 0 100 100)%Q;
    reflexivity.
Defined.

(** A viewport change on the settled pyramid and seven turns settle it
    again. *)
Lemma viewport_change_then_refinement_settled :
  exists w' : World (list Z) (list Z),
    run 10 (refine_rounds 7)
      (handle_draw_bounds_change UIThread Scenes.settled) = Done w' /\
    lod (plot w') = 3 /\
    _image_cache_valid (plot w') = true /\
    ui_loop w' = [] /\
    pending w' = [] /\
    submissions w' = 7%nat /\
    _cached_image (plot w') = Some [3; 0; 1023; 0; 1023].
Proof.
  exact (viewport_change_then_refinement 10 Scenes.settled 3
           (set__traits_cache_necessary_lod (Some 3) (plot Scenes.settled))
           (Some (0, 1023, 0, 1023)) (Some [0; 0; 100; 100]%Q)
           eq_refl eq_refl eq_refl (proj1 (Z.leb_le 3 9) eq_refl)).
Defined.

(** From LOD 9 the fitted pyramid needs seven turns to settle at LOD 3. *)
Lemma refinement_reaches_necessary_lod_fitted :
  exists w' : World (list Z) (list Z),
    run 10 (refine_rounds 7) Scenes.invalidated = Done w' /\
    lod (plot w') = 3 /\
    _image_cache_valid (plot w') = true /\
    ui_loop w' = [] /\
    pending w' = [] /\
    submissions w' = 7%nat /\
    _cached_image (plot w') = Some [3; 0; 1023; 0; 1023].
Proof.
  exact (proj2 (refinement_reaches_necessary_lod 10 Scenes.invalidated 3
                  (set__traits_cache_necessary_lod (Some 3)
                     (plot Scenes.invalidated))
                  (Some (0, 1023, 0, 1023)) (Some [0; 0; 100; 100]%Q)
                  eq_refl eq_refl eq_refl eq_refl eq_refl
                  (proj1 (Z.leb_le 3 9) eq_refl))).
Defined.

Lemma settled_plot_stays_settled_fitted :
  exists w' : World (list Z) (list Z),
    run 10 [CallRender; WorkerRunsJob; RunUIHandler; CallRender]
      Scenes.queued = Done w' /\
    _image_cache_valid (plot w') = true /\
    lod (plot w') = 3 /\
    submissions w' = 1%nat.
Proof.
  apply (settled_plot_stays_settled 10
           [CallRender; WorkerRunsJob; RunUIHandler; CallRender]
           Scenes.queued 3
           (set__traits_cache_necessary_lod (Some 3) (plot Scenes.queued))
           (Some (0, 1023, 0, 1023)) (Some [0; 0; 100; 100]%Q));
    try reflexivity.
  - apply not_elem_of_nil.
  - rewrite !not_elem_of_cons. repeat split; try discriminate.
    apply not_elem_of_nil.
Defined.

Lemma render_image_in_rect_reflects_horizontal :
  exists mid : list (gc_call (list Z)),
    calls (_render_image_in_rect Scenes.agg Sample.fitted Scenes.horizontal
             (Some [1]) (Some [0; 0; 100; 100]%Q) Scenes.blank).2
    = calls Scenes.blank ++ save_state :: mid ++ [restore_state] /\
    forall a b : Q,
      let p := user_to_device mid (0 + a, 0 + b)%Q in
      (p.1 == 0 + (if x_axis_is_flipped Sample.fitted then 100 - a else a))%Q
      /\
      (p.2 == 0 + (if y_axis_is_flipped Sample.fitted then b else 100 - b))%Q.
Proof.
  exact (render_image_in_rect_reflects Scenes.agg Sample.fitted
           Scenes.horizontal [1] 0 0 100 100 Scenes.blank eq_refl).
Defined.

Lemma compute_cached_image_degenerate_collapsed :
  (exists w' : World (list Z) (list Z),
     _compute_cached_image 10 WorkerThread None Scenes.collapsed
     = Raised TypeError w' /\
     _cached_image (plot w') = Some [] /\
     _cached_dest_rect (plot w') = None /\
     _image_cache_valid (plot w') = true /\
     lod (plot w') = 9 /\
     submissions (_render w') = submissions w' /\
     last (trace (_render w')) = Some (RenderImageInRect [] None)) /\
  (exists w' : World (list Z) (list Z),
     _compute_cached_image 10 WorkerThread None Scenes.collapsed_read
     = Done w' /\
     _cached_image (plot w') = Some [] /\
     _cached_dest_rect (plot w') = None /\
     lod (plot w') = 8).
Proof.
  split.
  - exact (proj1 (compute_cached_image_degenerate 10 WorkerThread None
                    Scenes.collapsed) eq_refl eq_refl eq_refl).
  - exact (proj1 (proj2 (compute_cached_image_degenerate 10 WorkerThread None
                           Scenes.collapsed_read)) 3 eq_refl eq_refl eq_refl).
Defined.
